(** * githubstub: the push-event relay script [fp.py]

    A shallow embedding of [src/extra/fp.py] (a Python 2 script) and the
    properties of it that the specification states.

    The script reads a GitHub push event (JSON) from its standard input,
    changes into the repository named by the event below a base directory
    given on the command line, runs [git fetch] there and then the
    repository's [hooks/post-receive], feeding it one line on its standard
    input, and finally prints what the hook printed and exits with the
    hook's return code.

    Python values are modelled as an inductive type, a dict as a [gmap] with
    string keys.  Effects are modelled with a state-and-exception monad over
    a [world]: the two output streams of the process, its working directory
    and a log of its interactions with the outside.  Library code
    ([optparse], [json], [str]) and the operating system (directories,
    subprocesses) are parameters.

    The library is that of CPython 2.7 on a POSIX system.  Python 2 has two
    kinds of strings: the arguments of the command line are byte strings
    ([str]), the strings of a JSON document are [unicode].  Both are held
    here as a [string] of bytes, a unicode text by its UTF-8 encoding, so
    that a unicode text is ASCII exactly when all of its bytes are, and the
    places where the library converts between the two kinds, and fails on
    what is not ASCII, are written out. *)

From Stdlib Require Import ZArith Ascii String Floats.SpecFloat.
From stdpp Require Import gmap strings list pretty.

Set Warnings "-register-all".

Local Open Scope Z_scope.
Local Open Scope string_scope.

(** ** Python values *)

(** What [json.load] can return: [None], booleans, integers, floats,
    strings ([unicode] objects, held by their UTF-8 encoding), lists and
    dicts with string keys. *)
Inductive value : Type :=
| VNone
| VBool (b : bool)
| VInt (n : Z)
| VFloat (f : spec_float)
| VStr (s : string)
| VList (l : list value)
| VDict (d : gmap string value).

(** Python's truth value of an object, as tested by [not x]. *)
Definition truthy (v : value) : bool :=
  match v with
  | VNone => false
  | VBool b => b
  | VInt n => negb (Z.eqb n 0)
  | VFloat f => match f with S754_zero _ => false | _ => true end
  | VStr s => match s with EmptyString => false | String _ _ => true end
  | VList l => match l with [] => false | _ :: _ => true end
  | VDict d => negb (bool_decide (d = ∅))
  end.

(** The text made of one newline character. *)
Definition nl : string := String "010"%char EmptyString.

(** ** Byte strings and unicode *)

(** A byte of an ASCII character, and a text of such bytes only. *)
Definition ascii_char (c : ascii) : bool := (N_of_ascii c <? 128)%N.

Fixpoint is_ascii (s : string) : bool :=
  match s with
  | EmptyString => true
  | String c s' => ascii_char c && is_ascii s'
  end.

(** The length of the longest ASCII prefix of a text. *)
Fixpoint ascii_prefix_length (s : string) : nat :=
  match s with
  | EmptyString => 0%nat
  | String c s' => if ascii_char c then S (ascii_prefix_length s') else 0%nat
  end.

(** A text with a NUL character in it. *)
Fixpoint has_nul (s : string) : bool :=
  match s with
  | EmptyString => false
  | String c s' => Ascii.eqb c "000"%char || has_nul s'
  end.

(** A string object of Python 2: a byte string or a unicode. *)
Inductive pystr : Type :=
| PyStr (s : string)
| PyUnicode (s : string).

(** ** Exceptions *)

Inductive exn : Type :=
| SystemExit (code : Z)
| ValueError
| KeyError (key : string)
| TypeError
| AttributeError
| Exception (msg : string)
| OSError (errno : Z) (filename : option string)
| CalledProcessError (returncode : Z) (cmd : list string)
| UnicodeDecodeError
| UnicodeEncodeError
| RuntimeError.

(** ** The world of the process *)

(** A terminated subprocess: what it wrote and how it ended. *)
Record completed : Type := Completed {
  c_stdout : string;
  c_stderr : string;
  c_returncode : Z
}.

(** The interactions of the script with the outside, in order.
    [EvChdir] has the path as the system call gets it, [EvPipeWrite] all
    that was written to the pipe of a subprocess. *)
Inductive event : Type :=
| EvReadStdin
| EvChdir (path : string)
| EvExec (dir : option string) (cmd : list string)
| EvPipeWrite (cmd : list string) (input : string)
| EvExit (cmd : list string) (r : completed).

(** [w_stdout] and [w_stderr] hold what the script and its subprocesses
    have written to the two streams; the traceback that the interpreter
    writes to the standard error once an exception has ended the script is
    not in them.  [w_cwd] is [None] until [os.chdir] has succeeded. *)
Record world : Type := World {
  w_stdout : string;
  w_stderr : string;
  w_cwd : option string;
  w_log : list event
}.

Definition init_world : world :=
  {| w_stdout := ""; w_stderr := ""; w_cwd := None; w_log := [] |}.

(** The operating system as the script meets it: whether a directory can be
    entered ([None], or the errno of the failure), whether a command can be
    started in a directory, and what a started command does with the bytes
    on its standard input. *)
Record os_env : Type := OsEnv {
  chdir_errno : string → option Z;
  spawn_errno : option string → list string → option Z;
  proc_run : option string → list string → string → completed
}.

(** ** The monad: state and exceptions *)

Inductive result (A : Type) : Type :=
| Return (a : A)
| Raise (e : exn).
Arguments Return {A} a.
Arguments Raise {A} e.

Definition M (A : Type) : Type := world → result A * world.

#[export] Instance M_ret : MRet M := λ A a w, (Return a, w).
#[export] Instance M_bind : MBind M := λ A B f m w,
  match m w with
  | (Return a, w') => f a w'
  | (Raise e, w') => (Raise e, w')
  end.

Definition raise {A : Type} (e : exn) : M A := λ w, (Raise e, w).

(** A computation without effects on the world. *)
Definition lift {A : Type} (r : result A) : M A := λ w, (r, w).

Definition emit (ev : event) : M unit := λ w,
  (Return (), {| w_stdout := w_stdout w; w_stderr := w_stderr w;
                 w_cwd := w_cwd w; w_log := w_log w ++ [ev] |}).

Definition write_stdout (s : string) : M unit := λ w,
  (Return (), {| w_stdout := w_stdout w +:+ s; w_stderr := w_stderr w;
                 w_cwd := w_cwd w; w_log := w_log w |}).

Definition write_stderr (s : string) : M unit := λ w,
  (Return (), {| w_stdout := w_stdout w; w_stderr := w_stderr w +:+ s;
                 w_cwd := w_cwd w; w_log := w_log w |}).

Definition set_cwd (d : string) : M unit := λ w,
  (Return (), {| w_stdout := w_stdout w; w_stderr := w_stderr w;
                 w_cwd := Some d; w_log := w_log w |}).

Definition get_cwd : M (option string) := λ w, (Return (w_cwd w), w).

(** ** Statements and library calls of Python *)

(** [print x] and [print >> sys.stderr, x]: the text, then a newline. *)
Definition print (s : string) : M unit := write_stdout (s +:+ nl).
Definition print_stderr (s : string) : M unit := write_stderr (s +:+ nl).

(** [sys.exit(n)] *)
Definition sys_exit {A : Type} (n : Z) : M A := raise (SystemExit n).

(** [v[k]] for a string [k]: a dict is looked up, anything else has no
    string subscript. *)
Definition subscript (v : value) (k : string) : M value :=
  match v with
  | VDict d =>
      match d !! k with
      | Some x => mret x
      | None => raise (KeyError k)
      end
  | _ => raise TypeError
  end.

(** [optparse]: [parser.error(msg)] prints the usage and the message on the
    standard error and exits with status 2.  The parser is built without a
    usage text, so the usage is the default one. *)
Definition get_usage (prog : string) : string :=
  "Usage: " +:+ prog +:+ " [options]" +:+ nl.

Definition parser_error {A : Type} (prog msg : string) : M A :=
  print_stderr (get_usage prog);;
  write_stderr (prog +:+ ": error: " +:+ msg +:+ nl);;
  sys_exit 2.

(** What [json.loads] does with a text: it returns the value of the
    document, or raises [ValueError] for a text that is no JSON document,
    or [RuntimeError] for a document nested too deep for the decoder. *)
Inductive decoded : Type :=
| Decoded (v : value)
| NoJSON
| TooDeep.

(** What [parser.parse_args()] does with the command line: it leaves the
    process (help text, unknown option) or returns the positional
    arguments. *)
Inductive parse_outcome : Type :=
| ParseExit (out err : string) (status : Z)
| ParseArgs (args : list string).

(** [posixpath.join(a, b)] on two strings of one kind. *)
Definition ends_with_slash (a : string) : bool :=
  match String.rev a with
  | String "/"%char _ => true
  | _ => false
  end.

Definition posix_join (a b : string) : string :=
  if String.prefix "/" b then b
  else if bool_decide (a = "") || ends_with_slash a then a +:+ b
  else a +:+ "/" +:+ b.

(** [a + b] for a byte string [a] and a unicode [b]: [a] is decoded as
    ASCII, and the sum is a unicode. *)
Definition str_plus_unicode (a b : string) : result string :=
  if is_ascii a then Return (a +:+ b) else Raise UnicodeDecodeError.

(** [posixpath.join(a, b)] for a byte string [a] and a unicode [b]:
    [path = b] for a [b] that starts with a slash, [path += b] for an [a]
    that is empty or ends with a slash, [path += '/' + b] otherwise. *)
Definition join_path (a b : string) : result string :=
  if String.prefix "/" b then Return b
  else if bool_decide (a = "") || ends_with_slash a then str_plus_unicode a b
  else str_plus_unicode a ("/" +:+ b).

(** [os.path.join(a, b)] for the base directory of the command line, a
    byte string, and a value of the payload: [b.startswith] exists on
    strings only. *)
Definition os_path_join (a : string) (b : value) : M string :=
  match b with
  | VStr s => lift (join_path a s)
  | _ => raise AttributeError
  end.

(** A started subprocess: the command and the directory it runs in. *)
Record popen : Type := Popen_ { p_dir : option string; p_cmd : list string }.

(** Starting a subprocess in the working directory of the script. *)
Definition spawn (os : os_env) (cmd : list string) : M popen :=
  dir ← get_cwd;
  emit (EvExec dir cmd);;
  match spawn_errno os dir cmd with
  | None => mret {| p_dir := dir; p_cmd := cmd |}
  | Some e => raise (OSError e None)
  end.

(** [check_call(cmd)]: the command inherits the three streams of the
    script, the standard input already read to its end; a non-zero return
    code raises [CalledProcessError]. *)
Definition check_call (os : os_env) (cmd : list string) : M unit :=
  p ← spawn os cmd;
  let r := proc_run os (p_dir p) (p_cmd p) "" in
  write_stdout (c_stdout r);;
  write_stderr (c_stderr r);;
  emit (EvExit cmd r);;
  if bool_decide (c_returncode r = 0) then mret ()
  else raise (CalledProcessError (c_returncode r) cmd).

(** [Popen(cmd, stdin=PIPE, stderr=PIPE, stdout=PIPE)] *)
Definition Popen (os : os_env) (cmd : list string) : M popen := spawn os cmd.


(** Reading a field of a payload without effects: [None] when the payload is
    no dict or has no such key. *)
Definition field (payload : value) (k : string) : option value :=
  match payload with
  | VDict d => d !! k
  | _ => None
  end.

(** The texts written to the standard input of subprocesses, in order. *)
Definition pipe_writes (log : list event) : list string :=
  omap (λ ev, match ev with EvPipeWrite _ input => Some input | _ => None end) log.

(** The errno values of a path that does not lead to a directory. *)
Definition ENOENT : Z := 2.
Definition ENOTDIR : Z := 20.

(** A payload whose [ref] is missing: it has no such key, or the value
    there is empty ([None], the empty string, and the like). *)
Definition ref_missing (payload : value) : Prop :=
  ∀ ref, field payload "ref" = Some ref → truthy ref = false.

(** A path that does not exist as a directory: [chdir] fails there with
    [ENOENT] or [ENOTDIR]. *)
Definition no_directory (os : os_env) (path : string) : Prop :=
  chdir_errno os path = Some ENOENT ∨ chdir_errno os path = Some ENOTDIR.

(** The errors of a repository that is not found: the [OSError] of a
    [chdir] to such a path. *)
Definition repository_not_found (e : exn) : Prop :=
  ∃ errno path, e = OSError errno (Some path) ∧ (errno = ENOENT ∨ errno = ENOTDIR).

(** Two machines agree on a log when they answer alike what the log asks:
    the directories entered, the commands started and what these do. *)
Definition agree_on (log : list event) (os1 os2 : os_env) : Prop :=
  (∀ path, EvChdir path ∈ log → chdir_errno os1 path = chdir_errno os2 path) ∧
  (∀ dir cmd, EvExec dir cmd ∈ log →
     spawn_errno os1 dir cmd = spawn_errno os2 dir cmd) ∧
  (∀ dir cmd input, EvExec dir cmd ∈ log →
     proc_run os1 dir cmd input = proc_run os2 dir cmd input).

(** The number of newline characters in a text. *)
Fixpoint count_nl (s : string) : nat :=
  match s with
  | EmptyString => 0%nat
  | String c s' => ((if Ascii.eqb c "010"%char then 1 else 0) + count_nl s')%nat
  end.

(** The number of starts of the command [cmd] in a log. *)
Fixpoint count_exec (cmd : list string) (log : list event) : nat :=
  match log with
  | [] => 0%nat
  | EvExec _ cmd' :: log' =>
      ((if bool_decide (cmd' = cmd) then 1 else 0) + count_exec cmd log')%nat
  | _ :: log' => count_exec cmd log'
  end.

(** ** The script *)

Section Relay.

(** [OptionParser().parse_args()] on [sys.argv[1:]]. *)
Variable parse_args : list string → parse_outcome.

(** [json.loads] on the text of the standard input. *)
Variable json_loads : string → decoded.

(** Python's [str] on floats, lists and dicts. *)
Variable str_builtin : value → string.

(** The encoding of the file system ([sys.getfilesystemencoding()]) on
    the unicode texts that are not ASCII: the bytes, or [None] for a text
    that the encoding does not have. *)
Variable fs_encode : string → option string.

(** [select.PIPE_BUF], at least 512 on a POSIX system. *)
Variable PIPE_BUF : nat.

Definition parser_parse_args (argv : list string) : M (list string) :=
  match parse_args argv with
  | ParseExit out err status =>
      write_stdout out;; write_stderr err;; sys_exit status
  | ParseArgs args => mret args
  end.

(** [json.load(sys.stdin)] *)
Definition json_load (stdin_data : string) : M value :=
  emit EvReadStdin;;
  match json_loads stdin_data with
  | Decoded v => mret v
  | NoJSON => raise ValueError
  | TooDeep => raise RuntimeError
  end.

(** Python's [str] on a value that is no string. *)
Definition py_str (v : value) : string :=
  match v with
  | VNone => "None"
  | VBool true => "True"
  | VBool false => "False"
  | VInt n => pretty n
  | _ => str_builtin v
  end.

(** One [%s] of a format string. *)
Definition format_s (v : value) : string :=
  match v with
  | VStr s => s
  | _ => py_str v
  end.

(** The text of ["%s %s %s\n" % (before, after, ref)]. *)
Definition hook_input (before after ref : value) : string :=
  format_s before +:+ " " +:+ format_s after +:+ " " +:+ format_s ref +:+ nl.

Definition is_unicode (v : value) : bool :=
  match v with
  | VStr _ => true
  | _ => false
  end.

(** ["%s %s %s\n" % (before, after, ref)]: a byte string when none of the
    three values is a unicode; a unicode otherwise, and then what [str]
    gives for the other values is decoded as ASCII. *)
Definition format_line (before after ref : value) : result pystr :=
  if is_unicode before || is_unicode after || is_unicode ref then
    if forallb (λ v, is_unicode v || is_ascii (py_str v)) [before; after; ref]
    then Return (PyUnicode (hook_input before after ref))
    else Raise UnicodeDecodeError
  else Return (PyStr (hook_input before after ref)).

(** The argument of the system call for the unicode [path]: the path in
    the encoding of the file system, which must have no NUL. *)
Definition fs_path (path : string) : result string :=
  match (if is_ascii path then Some path else fs_encode path) with
  | None => Raise UnicodeEncodeError
  | Some bytes => if has_nul bytes then Raise TypeError else Return bytes
  end.

(** [os.chdir(path)] for a unicode [path]. *)
Definition os_chdir (os : os_env) (path : string) : M unit :=
  bytes ← lift (fs_path path);
  emit (EvChdir bytes);;
  match chdir_errno os bytes with
  | None => set_cwd bytes
  | Some e => raise (OSError e (Some bytes))
  end.

(** What [communicate] writes of its input, and whether that is all of
    it.  The input goes to [os.write] in pieces of [PIPE_BUF] characters;
    a piece of a unicode is encoded as ASCII first, so the pieces before
    the first character that is not ASCII are written and no more. *)
Definition pipe_text (input : pystr) : string * bool :=
  match input with
  | PyStr s => (s, true)
  | PyUnicode s =>
      let n := ascii_prefix_length s in
      if bool_decide (n = String.length s) then (s, true)
      else (substring 0 (PIPE_BUF * (n / PIPE_BUF))%nat s, false)
  end.

(** [pr.communicate(input)]: the input is written to the pipe, the two
    outputs are captured until the process ends; [pr.returncode] is then
    set.  An input that cannot be written ends in [UnicodeEncodeError].
    [EvPipeWrite] is what [communicate] writes; a process that has closed
    its standard input by then does not get it ([communicate] ignores the
    [EPIPE] of the write), which is the business of [proc_run]. *)
Definition communicate (os : os_env) (pr : popen) (input : pystr) : M completed :=
  let (written, complete) := pipe_text input in
  if complete then
    emit (EvPipeWrite (p_cmd pr) written);;
    let r := proc_run os (p_dir pr) (p_cmd pr) written in
    emit (EvExit (p_cmd pr) r);;
    mret r
  else
    (if bool_decide (written = "") then mret ()
     else emit (EvPipeWrite (p_cmd pr) written));;
    raise UnicodeEncodeError.

(** Three tests in a row, each raising on a value that is not true. *)
Definition _validate_post_receive_args (ref before after : value) : M unit :=
  (if negb (truthy ref) then raise (Exception "No ref found") else mret ());;
  (if negb (truthy before) then raise (Exception "No before found") else mret ());;
  (if negb (truthy after) then raise (Exception "No after found") else mret ()).

(** The two commands of the script. *)
Definition git_fetch : list string := ["git"; "fetch"].
Definition post_receive : list string := ["hooks/post-receive"].

(** [main()], on the machine [os], started as [prog] (the name of the
    script, the last component of [sys.argv[0]]) with the arguments [argv]
    ([sys.argv[1:]]) and the text [stdin_data] on its standard input.  The
    [usage] text that [main] builds first is passed to nothing and has no
    effect.  [if not args: parser.error(...)] does not
    return, hence the two branches on [args]. *)
Definition main (os : os_env) (prog : string) (argv : list string)
    (stdin_data : string) : M unit :=
  args ← parser_parse_args argv;
  match args with
  | [] => parser_error prog "Base repo dir is required"
  | base_repo_dir :: _ =>
      payload ← json_load stdin_data;
      repository ← subscript payload "repository";
      repo_name ← subscript repository "name";
      ref ← subscript payload "ref";
      before ← subscript payload "before";
      after ← subscript payload "after";
      _validate_post_receive_args ref before after;;
      repo_dir ← os_path_join base_repo_dir repo_name;
      os_chdir os repo_dir;;
      check_call os git_fetch;;
      pr ← Popen os post_receive;
      line ← lift (format_line before after ref);
      r ← communicate os pr line;
      print (c_stdout r);;
      print_stderr (c_stderr r);;
      sys_exit (c_returncode r)
  end.

(** A run of the script from a fresh process. *)
Definition run (os : os_env) (prog : string) (argv : list string)
    (stdin_data : string) : result unit * world :=
  main os prog argv stdin_data init_world.

(** *** The ways a run ends

    [script_run os prog argv stdin_data res w] lists, one constructor per
    way, how a run of the script can end, with the exception that ends it
    and the world it leaves: the statements of [main] in order, each with
    the branch that stops there.  [run_script_run] below shows that every
    run ends in one of these ways. *)

(** The exception of [v[k]] when it has no value. *)
Definition subscript_error (v : value) (k : string) : exn :=
  match v with
  | VDict _ => KeyError k
  | _ => TypeError
  end.

(** The four values [main] takes from the payload. *)
Definition has_fields (payload : value) (repo_name ref before after : value) : Prop :=
  (∃ repository, field payload "repository" = Some repository ∧
                 field repository "name" = Some repo_name) ∧
  field payload "ref" = Some ref ∧
  field payload "before" = Some before ∧
  field payload "after" = Some after.

Definition validated (ref before after : value) : Prop :=
  truthy ref = true ∧ truthy before = true ∧ truthy after = true.

Inductive script_run (os : os_env) (prog : string) (argv : list string)
    (stdin_data : string) : result unit → world → Prop :=
| run_parser_exit out err status :
    parse_args argv = ParseExit out err status →
    script_run os prog argv stdin_data (Raise (SystemExit status))
      (World out err None [])
| run_no_args :
    parse_args argv = ParseArgs [] →
    script_run os prog argv stdin_data (Raise (SystemExit 2))
      (World ""
         ((get_usage prog +:+ nl) +:+
          (prog +:+ ": error: " +:+ "Base repo dir is required" +:+ nl))
         None [])
| run_no_json base rest :
    parse_args argv = ParseArgs (base :: rest) →
    json_loads stdin_data = NoJSON →
    script_run os prog argv stdin_data (Raise ValueError)
      (World "" "" None [EvReadStdin])
| run_json_too_deep base rest :
    parse_args argv = ParseArgs (base :: rest) →
    json_loads stdin_data = TooDeep →
    script_run os prog argv stdin_data (Raise RuntimeError)
      (World "" "" None [EvReadStdin])
| run_no_repository base rest payload :
    parse_args argv = ParseArgs (base :: rest) →
    json_loads stdin_data = Decoded payload →
    field payload "repository" = None →
    script_run os prog argv stdin_data
      (Raise (subscript_error payload "repository"))
      (World "" "" None [EvReadStdin])
| run_no_name base rest payload repository :
    parse_args argv = ParseArgs (base :: rest) →
    json_loads stdin_data = Decoded payload →
    field payload "repository" = Some repository →
    field repository "name" = None →
    script_run os prog argv stdin_data
      (Raise (subscript_error repository "name"))
      (World "" "" None [EvReadStdin])
| run_no_ref base rest payload repository repo_name :
    parse_args argv = ParseArgs (base :: rest) →
    json_loads stdin_data = Decoded payload →
    field payload "repository" = Some repository →
    field repository "name" = Some repo_name →
    field payload "ref" = None →
    script_run os prog argv stdin_data (Raise (KeyError "ref"))
      (World "" "" None [EvReadStdin])
| run_no_before base rest payload repository repo_name ref :
    parse_args argv = ParseArgs (base :: rest) →
    json_loads stdin_data = Decoded payload →
    field payload "repository" = Some repository →
    field repository "name" = Some repo_name →
    field payload "ref" = Some ref →
    field payload "before" = None →
    script_run os prog argv stdin_data (Raise (KeyError "before"))
      (World "" "" None [EvReadStdin])
| run_no_after base rest payload repository repo_name ref before :
    parse_args argv = ParseArgs (base :: rest) →
    json_loads stdin_data = Decoded payload →
    field payload "repository" = Some repository →
    field repository "name" = Some repo_name →
    field payload "ref" = Some ref →
    field payload "before" = Some before →
    field payload "after" = None →
    script_run os prog argv stdin_data (Raise (KeyError "after"))
      (World "" "" None [EvReadStdin])
| run_empty_ref base rest payload repo_name ref before after :
    parse_args argv = ParseArgs (base :: rest) →
    json_loads stdin_data = Decoded payload →
    has_fields payload repo_name ref before after →
    truthy ref = false →
    script_run os prog argv stdin_data (Raise (Exception "No ref found"))
      (World "" "" None [EvReadStdin])
| run_empty_before base rest payload repo_name ref before after :
    parse_args argv = ParseArgs (base :: rest) →
    json_loads stdin_data = Decoded payload →
    has_fields payload repo_name ref before after →
    truthy ref = true →
    truthy before = false →
    script_run os prog argv stdin_data (Raise (Exception "No before found"))
      (World "" "" None [EvReadStdin])
| run_empty_after base rest payload repo_name ref before after :
    parse_args argv = ParseArgs (base :: rest) →
    json_loads stdin_data = Decoded payload →
    has_fields payload repo_name ref before after →
    truthy ref = true →
    truthy before = true →
    truthy after = false →
    script_run os prog argv stdin_data (Raise (Exception "No after found"))
      (World "" "" None [EvReadStdin])
| run_name_no_string base rest payload repo_name ref before after :
    parse_args argv = ParseArgs (base :: rest) →
    json_loads stdin_data = Decoded payload →
    has_fields payload repo_name ref before after →
    validated ref before after →
    (∀ name, repo_name ≠ VStr name) →
    script_run os prog argv stdin_data (Raise AttributeError)
      (World "" "" None [EvReadStdin])
| run_join_fails base rest payload name ref before after :
    parse_args argv = ParseArgs (base :: rest) →
    json_loads stdin_data = Decoded payload →
    has_fields payload (VStr name) ref before after →
    validated ref before after →
    join_path base name = Raise UnicodeDecodeError →
    script_run os prog argv stdin_data (Raise UnicodeDecodeError)
      (World "" "" None [EvReadStdin])
| run_path_not_encoded base rest payload name ref before after path :
    parse_args argv = ParseArgs (base :: rest) →
    json_loads stdin_data = Decoded payload →
    has_fields payload (VStr name) ref before after →
    validated ref before after →
    join_path base name = Return path →
    fs_path path = Raise UnicodeEncodeError →
    script_run os prog argv stdin_data (Raise UnicodeEncodeError)
      (World "" "" None [EvReadStdin])
| run_path_nul base rest payload name ref before after path :
    parse_args argv = ParseArgs (base :: rest) →
    json_loads stdin_data = Decoded payload →
    has_fields payload (VStr name) ref before after →
    validated ref before after →
    join_path base name = Return path →
    fs_path path = Raise TypeError →
    script_run os prog argv stdin_data (Raise TypeError)
      (World "" "" None [EvReadStdin])
| run_chdir_fails base rest payload name ref before after path repo_dir errno :
    parse_args argv = ParseArgs (base :: rest) →
    json_loads stdin_data = Decoded payload →
    has_fields payload (VStr name) ref before after →
    validated ref before after →
    join_path base name = Return path →
    fs_path path = Return repo_dir →
    chdir_errno os repo_dir = Some errno →
    script_run os prog argv stdin_data (Raise (OSError errno (Some repo_dir)))
      (World "" "" None [EvReadStdin; EvChdir repo_dir])
| run_fetch_not_started base rest payload name ref before after path repo_dir
    errno :
    parse_args argv = ParseArgs (base :: rest) →
    json_loads stdin_data = Decoded payload →
    has_fields payload (VStr name) ref before after →
    validated ref before after →
    join_path base name = Return path →
    fs_path path = Return repo_dir →
    chdir_errno os repo_dir = None →
    spawn_errno os (Some repo_dir) git_fetch = Some errno →
    script_run os prog argv stdin_data (Raise (OSError errno None))
      (World "" "" (Some repo_dir)
         [EvReadStdin; EvChdir repo_dir; EvExec (Some repo_dir) git_fetch])
| run_fetch_fails base rest payload name ref before after path repo_dir :
    parse_args argv = ParseArgs (base :: rest) →
    json_loads stdin_data = Decoded payload →
    has_fields payload (VStr name) ref before after →
    validated ref before after →
    join_path base name = Return path →
    fs_path path = Return repo_dir →
    chdir_errno os repo_dir = None →
    spawn_errno os (Some repo_dir) git_fetch = None →
    let fetched := proc_run os (Some repo_dir) git_fetch "" in
    c_returncode fetched ≠ 0 →
    script_run os prog argv stdin_data
      (Raise (CalledProcessError (c_returncode fetched) git_fetch))
      (World (c_stdout fetched) (c_stderr fetched) (Some repo_dir)
         [EvReadStdin; EvChdir repo_dir; EvExec (Some repo_dir) git_fetch;
          EvExit git_fetch fetched])
| run_hook_not_started base rest payload name ref before after path repo_dir
    errno :
    parse_args argv = ParseArgs (base :: rest) →
    json_loads stdin_data = Decoded payload →
    has_fields payload (VStr name) ref before after →
    validated ref before after →
    join_path base name = Return path →
    fs_path path = Return repo_dir →
    chdir_errno os repo_dir = None →
    spawn_errno os (Some repo_dir) git_fetch = None →
    let fetched := proc_run os (Some repo_dir) git_fetch "" in
    c_returncode fetched = 0 →
    spawn_errno os (Some repo_dir) post_receive = Some errno →
    script_run os prog argv stdin_data (Raise (OSError errno None))
      (World (c_stdout fetched) (c_stderr fetched) (Some repo_dir)
         [EvReadStdin; EvChdir repo_dir; EvExec (Some repo_dir) git_fetch;
          EvExit git_fetch fetched; EvExec (Some repo_dir) post_receive])
| run_format_fails base rest payload name ref before after path repo_dir :
    parse_args argv = ParseArgs (base :: rest) →
    json_loads stdin_data = Decoded payload →
    has_fields payload (VStr name) ref before after →
    validated ref before after →
    join_path base name = Return path →
    fs_path path = Return repo_dir →
    chdir_errno os repo_dir = None →
    spawn_errno os (Some repo_dir) git_fetch = None →
    let fetched := proc_run os (Some repo_dir) git_fetch "" in
    c_returncode fetched = 0 →
    spawn_errno os (Some repo_dir) post_receive = None →
    format_line before after ref = Raise UnicodeDecodeError →
    script_run os prog argv stdin_data (Raise UnicodeDecodeError)
      (World (c_stdout fetched) (c_stderr fetched) (Some repo_dir)
         [EvReadStdin; EvChdir repo_dir; EvExec (Some repo_dir) git_fetch;
          EvExit git_fetch fetched; EvExec (Some repo_dir) post_receive])
| run_write_fails base rest payload name ref before after path repo_dir line :
    parse_args argv = ParseArgs (base :: rest) →
    json_loads stdin_data = Decoded payload →
    has_fields payload (VStr name) ref before after →
    validated ref before after →
    join_path base name = Return path →
    fs_path path = Return repo_dir →
    chdir_errno os repo_dir = None →
    spawn_errno os (Some repo_dir) git_fetch = None →
    let fetched := proc_run os (Some repo_dir) git_fetch "" in
    c_returncode fetched = 0 →
    spawn_errno os (Some repo_dir) post_receive = None →
    format_line before after ref = Return line →
    pipe_text line = ("", false) →
    script_run os prog argv stdin_data (Raise UnicodeEncodeError)
      (World (c_stdout fetched) (c_stderr fetched) (Some repo_dir)
         [EvReadStdin; EvChdir repo_dir; EvExec (Some repo_dir) git_fetch;
          EvExit git_fetch fetched; EvExec (Some repo_dir) post_receive])
| run_write_stops base rest payload name ref before after path repo_dir line
    written :
    parse_args argv = ParseArgs (base :: rest) →
    json_loads stdin_data = Decoded payload →
    has_fields payload (VStr name) ref before after →
    validated ref before after →
    join_path base name = Return path →
    fs_path path = Return repo_dir →
    chdir_errno os repo_dir = None →
    spawn_errno os (Some repo_dir) git_fetch = None →
    let fetched := proc_run os (Some repo_dir) git_fetch "" in
    c_returncode fetched = 0 →
    spawn_errno os (Some repo_dir) post_receive = None →
    format_line before after ref = Return line →
    pipe_text line = (written, false) →
    written ≠ "" →
    script_run os prog argv stdin_data (Raise UnicodeEncodeError)
      (World (c_stdout fetched) (c_stderr fetched) (Some repo_dir)
         [EvReadStdin; EvChdir repo_dir; EvExec (Some repo_dir) git_fetch;
          EvExit git_fetch fetched; EvExec (Some repo_dir) post_receive;
          EvPipeWrite post_receive written])
| run_hook_done base rest payload name ref before after path repo_dir line
    input :
    parse_args argv = ParseArgs (base :: rest) →
    json_loads stdin_data = Decoded payload →
    has_fields payload (VStr name) ref before after →
    validated ref before after →
    join_path base name = Return path →
    fs_path path = Return repo_dir →
    chdir_errno os repo_dir = None →
    spawn_errno os (Some repo_dir) git_fetch = None →
    let fetched := proc_run os (Some repo_dir) git_fetch "" in
    c_returncode fetched = 0 →
    spawn_errno os (Some repo_dir) post_receive = None →
    format_line before after ref = Return line →
    pipe_text line = (input, true) →
    let hooked := proc_run os (Some repo_dir) post_receive input in
    script_run os prog argv stdin_data
      (Raise (SystemExit (c_returncode hooked)))
      (World (c_stdout fetched +:+ (c_stdout hooked +:+ nl))
         (c_stderr fetched +:+ (c_stderr hooked +:+ nl))
         (Some repo_dir)
         [EvReadStdin; EvChdir repo_dir; EvExec (Some repo_dir) git_fetch;
          EvExit git_fetch fetched; EvExec (Some repo_dir) post_receive;
          EvPipeWrite post_receive input; EvExit post_receive hooked]).

End Relay.

(** The exit status of the process: the code of [sys.exit] as the operating
    system truncates it, 1 for any other uncaught exception. *)
Definition exit_status (r : result unit) : Z :=
  match r with
  | Return _ => 0
  | Raise (SystemExit n) => n `mod` 256
  | Raise _ => 1
  end.

(** ** A concrete setting for the examples *)

Module Sample.

(** A command line without options: every argument is positional. *)
Definition parse_args (argv : list string) : parse_outcome := ParseArgs argv.

(** A push event with its four values. *)
Definition push (name ref before after : value) : value :=
  VDict (<["repository" := VDict {[ "name" := name ]}]>
         (<["ref" := ref]> (<["before" := before]> {[ "after" := after ]}))).

Definition event : value :=
  push (VStr "site") (VStr "refs/heads/master") (VStr "1a2b") (VStr "3c4d").

(** Events with an empty value. *)
Definition event_empty_ref : value :=
  push (VStr "site") (VStr "") (VStr "1a2b") (VStr "3c4d").
Definition event_empty_before : value :=
  push (VStr "site") (VStr "refs/heads/master") (VStr "") (VStr "3c4d").

(** Events with an empty ref and without one of the revisions. *)
Definition event_no_before : value :=
  VDict (<["repository" := VDict {[ "name" := VStr "site" ]}]>
         (<["ref" := VStr ""]> {[ "after" := VStr "3c4d" ]})).
Definition event_no_after : value :=
  VDict (<["repository" := VDict {[ "name" := VStr "site" ]}]>
         (<["ref" := VStr ""]> {[ "before" := VStr "1a2b" ]})).

(** Events for a repository that is not there, and for none. *)
Definition event_gone : value :=
  push (VStr "gone") (VStr "refs/heads/master") (VStr "1a2b") (VStr "3c4d").
Definition event_no_name : value :=
  push (VStr "") (VStr "refs/heads/master") (VStr "1a2b") (VStr "3c4d").

(** The decoder on the texts of the examples, which are named here rather
    than spelled out. *)
Definition json_loads (text : string) : decoded :=
  if bool_decide (text = "event") then Decoded event
  else if bool_decide (text = "event, empty ref") then Decoded event_empty_ref
  else if bool_decide (text = "event, empty before") then Decoded event_empty_before
  else if bool_decide (text = "event, empty ref, no before") then Decoded event_no_before
  else if bool_decide (text = "event, empty ref, no after") then Decoded event_no_after
  else if bool_decide (text = "event, gone") then Decoded event_gone
  else if bool_decide (text = "event, no name") then Decoded event_no_name
  else NoJSON.

(** A file system in UTF-8, the encoding in which the unicode texts are
    held here. *)
Definition fs_encode (path : string) : option string := Some path.

(** [select.PIPE_BUF] on Linux. *)
Definition PIPE_BUF : nat := 4096.

(** [str] where the examples need it: they have no floats, lists or
    dicts to format. *)
Definition str_builtin (v : value) : string := "".

(** A machine with the repository [/srv/git/site], where [git fetch] is
    silent and succeeds and the hook echoes its input, warns and returns
    3. *)
Definition os : os_env := {|
  chdir_errno path :=
    if bool_decide (path ∈ ["/srv/git/site"; "/srv/git"; "/srv/git/"]) then None
    else Some ENOENT;
  spawn_errno dir cmd := None;
  proc_run dir cmd input :=
    if bool_decide (cmd = ["git"; "fetch"]) then Completed "" "" 0
    else Completed input "warn" 3
|}.

(** The same machine at another time: the repository [gone] is there, and
    the hooks of the repositories other than [site] are silent. *)
Definition os_later : os_env := {|
  chdir_errno path :=
    if bool_decide (path ∈ ["/srv/git/site"; "/srv/git"; "/srv/git/";
                            "/srv/git/gone"]) then None
    else Some ENOENT;
  spawn_errno dir cmd := None;
  proc_run dir cmd input :=
    if bool_decide (cmd = ["git"; "fetch"]) then Completed "" "" 0
    else if bool_decide (dir = Some "/srv/git/site") then Completed input "warn" 3
    else Completed "" "" 0
|}.

(** The same machine with a remote that cannot be reached. *)
Definition os_offline : os_env := {|
  chdir_errno := chdir_errno os;
  spawn_errno := spawn_errno os;
  proc_run dir cmd input := Completed "" "fatal" 7
|}.

(** The line of [event], what the hook of [os] does with it, and the world
    after the run on it. *)
Definition line : string := "1a2b 3c4d refs/heads/master" +:+ nl.

Definition hooked : completed := Completed line "warn" 3.

Definition world_event : world :=
  World (line +:+ nl) ("warn" +:+ nl) (Some "/srv/git/site")
    [EvReadStdin; EvChdir "/srv/git/site";
     EvExec (Some "/srv/git/site") ["git"; "fetch"];
     EvExit ["git"; "fetch"] (Completed "" "" 0);
     EvExec (Some "/srv/git/site") ["hooks/post-receive"];
     EvPipeWrite ["hooks/post-receive"] line;
     EvExit ["hooks/post-receive"] hooked].

(** The world after a run that ends on the payload. *)
Definition world_payload : world := World "" "" None [EvReadStdin].

(** A run of the script on that machine, as [fp.py]. *)
Definition run (argv : list string) (stdin_data : string) : result unit * world :=
  run parse_args json_loads str_builtin fs_encode PIPE_BUF os "fp.py" argv
    stdin_data.

End Sample.

(** ** Further examples *)

Module More.

(** Events whose repository is named by no string, by a path from the
    root, and by a path through the parent of the base directory. *)
Definition event_null_name : value :=
  Sample.push VNone (VStr "refs/heads/master") (VStr "1a2b") (VStr "3c4d").
Definition event_absolute : value :=
  Sample.push (VStr "/etc") (VStr "refs/heads/master") (VStr "1a2b") (VStr "3c4d").
Definition event_parent : value :=
  Sample.push (VStr "../other") (VStr "refs/heads/master") (VStr "1a2b") (VStr "3c4d").

(** The fields of an event without [after], and of one without
    [repository]. *)
Definition fields_no_after : gmap string value :=
  <["repository" := VDict {[ "name" := VStr "site" ]}]>
    (<["ref" := VStr "refs/heads/master"]> {[ "before" := VStr "1a2b" ]}).
Definition fields_no_repository : gmap string value :=
  <["ref" := VStr "refs/heads/master"]>
    (<["before" := VStr "1a2b"]> {[ "after" := VStr "3c4d" ]}).

(** The event of [Sample.event] as GitHub sends it, with more in it. *)
Definition event_pusher : value :=
  VDict (<["pusher" := VDict {[ "name" := VStr "me" ]}]>
         (<["repository" := VDict (<["url" := VStr "https://example.org/site"]>
                                    {[ "name" := VStr "site" ]})]>
          (<["ref" := VStr "refs/heads/master"]>
           (<["before" := VStr "1a2b"]> {[ "after" := VStr "3c4d" ]})))).

(** The two bytes of an e with an acute accent in UTF-8, and a text with a
    NUL in it. *)
Definition e_acute : string := String "195"%char (String "169"%char "").
Definition nul : string := String "000"%char "".

(** Events with a ref that is not ASCII, with a ref of two lines, and with
    a name that has a NUL in it. *)
Definition event_accent : value :=
  Sample.push (VStr "site") (VStr ("refs/heads/caf" +:+ e_acute)) (VStr "1a2b")
    (VStr "3c4d").
Definition event_two_lines : value :=
  Sample.push (VStr "site") (VStr ("refs/heads/a" +:+ nl +:+ "b")) (VStr "1a2b")
    (VStr "3c4d").
Definition event_nul : value :=
  Sample.push (VStr ("si" +:+ nul +:+ "te")) (VStr "refs/heads/master")
    (VStr "1a2b") (VStr "3c4d").

(** An event whose [ref] is a number and whose [before] is [true]. *)
Definition event_numbers : value :=
  Sample.push (VStr "site") (VInt 7) (VBool true) (VStr "3c4d").

(** A base directory that is not ASCII. *)
Definition base_accent : string := "/srv/caf" +:+ e_acute.

(** The decoder of [Sample], on some more texts. *)
Definition json_loads (text : string) : decoded :=
  if bool_decide (text = "[]") then Decoded (VList [])
  else if bool_decide (text = "event, no repository") then
    Decoded (VDict fields_no_repository)
  else if bool_decide (text = "event, no after") then Decoded (VDict fields_no_after)
  else if bool_decide (text = "event, null name") then Decoded event_null_name
  else if bool_decide (text = "event, absolute name") then Decoded event_absolute
  else if bool_decide (text = "event, parent name") then Decoded event_parent
  else if bool_decide (text = "event, pusher") then Decoded event_pusher
  else if bool_decide (text = "event, accent in ref") then Decoded event_accent
  else if bool_decide (text = "event, newline in ref") then Decoded event_two_lines
  else if bool_decide (text = "event, NUL in name") then Decoded event_nul
  else if bool_decide (text = "event, numbers") then Decoded event_numbers
  else Sample.json_loads text.

(** The machine of [Sample] with every directory there. *)
Definition os_open : os_env := {|
  chdir_errno path := None;
  spawn_errno := spawn_errno Sample.os;
  proc_run := proc_run Sample.os
|}.

(** The machine of [Sample] without [git], and without a hook in the
    repository. *)
Definition os_no_git : os_env := {|
  chdir_errno := chdir_errno Sample.os;
  spawn_errno dir cmd :=
    if bool_decide (cmd = ["git"; "fetch"]) then Some ENOENT else None;
  proc_run := proc_run Sample.os
|}.
Definition os_no_hook : os_env := {|
  chdir_errno := chdir_errno Sample.os;
  spawn_errno dir cmd :=
    if bool_decide (cmd = ["hooks/post-receive"]) then Some ENOENT else None;
  proc_run := proc_run Sample.os
|}.

(** The machine of [Sample] with a hook that is killed (signal 9), and
    with one that echoes its input and returns 0. *)
Definition os_killed : os_env := {|
  chdir_errno := chdir_errno Sample.os;
  spawn_errno := spawn_errno Sample.os;
  proc_run dir cmd input :=
    if bool_decide (cmd = ["git"; "fetch"]) then Completed "" "" 0
    else Completed "" "" (-9)
|}.
Definition os_echo : os_env := {|
  chdir_errno := chdir_errno Sample.os;
  spawn_errno := spawn_errno Sample.os;
  proc_run dir cmd input :=
    if bool_decide (cmd = ["git"; "fetch"]) then Completed "" "From origin" 0
    else Completed input "" 0
|}.

(** The world after the run of [Sample.event] in the directory [dir]. *)
Definition world_in (dir : string) : world :=
  World (Sample.line +:+ nl) ("warn" +:+ nl) (Some dir)
    [EvReadStdin; EvChdir dir; EvExec (Some dir) git_fetch;
     EvExit git_fetch (Completed "" "" 0); EvExec (Some dir) post_receive;
     EvPipeWrite post_receive Sample.line; EvExit post_receive Sample.hooked].

(** The line of [event_two_lines], and the world once the hook of
    [Sample.os] has been started in the repository and nothing more has
    happened. *)
Definition two_lines : string :=
  "1a2b 3c4d refs/heads/a" +:+ nl +:+ "b" +:+ nl.

Definition world_hook_started : world :=
  World "" "" (Some "/srv/git/site")
    [EvReadStdin; EvChdir "/srv/git/site";
     EvExec (Some "/srv/git/site") git_fetch;
     EvExit git_fetch (Completed "" "" 0);
     EvExec (Some "/srv/git/site") post_receive].

(** A run of the script as [fp.py] with the decoder above. *)
Definition run (os : os_env) (argv : list string) (stdin_data : string) :
    result unit * world :=
  run Sample.parse_args json_loads Sample.str_builtin Sample.fs_encode
    Sample.PIPE_BUF os "fp.py" argv stdin_data.

End More.

(** * Properties *)

(** Deciding membership in a log that is written out. *)
Ltac in_log H :=
  repeat (apply elem_of_cons in H as [H|H]; [try discriminate H|]);
  try (apply elem_of_nil in H; destruct H).

(** The members of a log that is written out, and the events that are not
    in it. *)
Ltac log_member := simpl; set_solver.
Ltac log_others :=
  let Hin := fresh "Hin" in
  intros; intros Hin; simpl in Hin; in_log Hin.
Ltac log_only :=
  let Hin := fresh "Hin" in
  intros ? Hin; simpl in Hin; in_log Hin; congruence.

Section RelayFacts.

Context (parse_args : list string → parse_outcome).
Context (json_loads : string → decoded).
Context (str_builtin : value → string).
Context (fs_encode : string → option string).
Context (PIPE_BUF : nat).

Local Abbreviation run :=
  (run parse_args json_loads str_builtin fs_encode PIPE_BUF).
Local Abbreviation script_run :=
  (script_run parse_args json_loads str_builtin fs_encode PIPE_BUF).
Local Abbreviation hook_input := (hook_input str_builtin).
Local Abbreviation format_line := (format_line str_builtin).
Local Abbreviation fs_path := (fs_path fs_encode).
Local Abbreviation pipe_text := (pipe_text PIPE_BUF).

(** [v[k]] in terms of [field]. *)
Lemma subscript_field v k w :
  subscript v k w =
  match field v k with
  | Some x => (Return x, w)
  | None => (Raise (subscript_error v k), w)
  end.
Proof. destruct v; simpl; try reflexivity. destruct (d !! k); reflexivity. Qed.

(** A subscript that fails on a dict is a missing key. *)
Lemma subscript_error_dict v k x k' :
  field v k = Some x → subscript_error v k' = KeyError k'.
Proof. destruct v; simpl; congruence. Qed.

(** [os.path.join] fails on every name that is no string. *)
Lemma os_path_join_no_string a b w :
  (∀ name, b ≠ VStr name) → os_path_join a b w = (Raise AttributeError, w).
Proof. intros Hb. destruct b; try reflexivity. destruct (Hb s eq_refl). Qed.

(** The exceptions of the conversions between the two kinds of strings. *)
Lemma join_path_error a b e : join_path a b = Raise e → e = UnicodeDecodeError.
Proof.
  unfold join_path, str_plus_unicode.
  destruct (String.prefix "/" b); [discriminate|].
  destruct (bool_decide (a = "") || ends_with_slash a), (is_ascii a); congruence.
Qed.

Lemma fs_path_error path e :
  fs_path path = Raise e → e = UnicodeEncodeError ∨ e = TypeError.
Proof.
  unfold fs_path.
  destruct (if is_ascii path then Some path else fs_encode path) as [bytes|];
    [destruct (has_nul bytes)|]; intros [= <-]; auto.
Qed.

Lemma format_line_error before after ref e :
  format_line before after ref = Raise e → e = UnicodeDecodeError.
Proof.
  unfold format_line.
  destruct (is_unicode before || is_unicode after || is_unicode ref); [|discriminate].
  destruct (forallb _ _); congruence.
Qed.

(** Every run of the script ends in one of the ways of [script_run]. *)
Lemma run_script_run os prog argv stdin_data :
  script_run os prog argv stdin_data
    (run os prog argv stdin_data).1 (run os prog argv stdin_data).2.
Proof.
  unfold run, main, parser_parse_args, init_world, mbind, M_bind.
  destruct (parse_args argv) as [out err status|[|base rest]] eqn:Hargs; simpl.
  { by apply run_parser_exit. }
  { by apply run_no_args. }
  unfold json_load, lift, mbind, M_bind; simpl.
  destruct (json_loads stdin_data) as [payload| |] eqn:Hjson; simpl;
    [|by eapply run_no_json|by eapply run_json_too_deep].
  rewrite subscript_field.
  destruct (field payload "repository") as [repository|] eqn:Hrepo; simpl;
    [|by eapply run_no_repository].
  rewrite subscript_field.
  destruct (field repository "name") as [repo_name|] eqn:Hname; simpl;
    [|by eapply run_no_name].
  rewrite subscript_field.
  destruct (field payload "ref") as [ref|] eqn:Href; simpl.
  2: { rewrite (subscript_error_dict _ _ _ _ Hrepo). by eapply run_no_ref. }
  rewrite subscript_field.
  destruct (field payload "before") as [before|] eqn:Hbefore; simpl.
  2: { rewrite (subscript_error_dict _ _ _ _ Hrepo). by eapply run_no_before. }
  rewrite subscript_field.
  destruct (field payload "after") as [after|] eqn:Hafter; simpl.
  2: { rewrite (subscript_error_dict _ _ _ _ Hrepo). by eapply run_no_after. }
  assert (Hfields : has_fields payload repo_name ref before after)
    by (unfold has_fields; eauto 10).
  unfold _validate_post_receive_args, mbind, M_bind.
  destruct (truthy ref) eqn:Tref; simpl; [|by eapply run_empty_ref].
  destruct (truthy before) eqn:Tbefore; simpl; [|by eapply run_empty_before].
  destruct (truthy after) eqn:Tafter; simpl; [|by eapply run_empty_after].
  assert (Hvalid : validated ref before after) by done.
  assert (Hname' : (∃ name, repo_name = VStr name) ∨ ∀ name, repo_name ≠ VStr name)
    by (destruct repo_name; eauto).
  destruct Hname' as [[name ->]|Hno].
  2: { rewrite os_path_join_no_string by done. by eapply run_name_no_string. }
  simpl. unfold lift.
  destruct (join_path base name) as [path|e] eqn:Hjoin; simpl.
  2: { pose proof (join_path_error _ _ _ Hjoin) as ->.
       by eapply run_join_fails. }
  unfold os_chdir, lift, mbind, M_bind; simpl.
  destruct (fs_path path) as [repo_dir|e] eqn:Hfs; simpl.
  2: { destruct (fs_path_error _ _ Hfs) as [-> | ->];
         [by eapply run_path_not_encoded|by eapply run_path_nul]. }
  destruct (chdir_errno os repo_dir) as [errno|] eqn:Hcd; simpl;
    [by eapply run_chdir_fails|].
  unfold check_call, spawn, mbind, M_bind; simpl.
  destruct (spawn_errno os (Some repo_dir) git_fetch)
    as [errno|] eqn:Hsf; simpl; [by eapply run_fetch_not_started|].
  case_bool_decide as Hrc; simpl; [|by eapply run_fetch_fails].
  unfold Popen, spawn, mbind, M_bind; simpl.
  destruct (spawn_errno os (Some repo_dir) post_receive)
    as [errno|] eqn:Hsh; simpl; [by eapply run_hook_not_started|].
  destruct (format_line before after ref) as [line|e] eqn:Hfmt; simpl.
  2: { pose proof (format_line_error _ _ _ _ Hfmt) as ->.
       by eapply run_format_fails. }
  unfold communicate.
  destruct (pipe_text line) as [written [|]] eqn:Hpipe; simpl.
  { by eapply run_hook_done. }
  unfold mbind, M_bind. case_bool_decide as Hw; simpl.
  - subst written. by eapply run_write_fails.
  - by eapply run_write_stops.
Qed.

Lemma run_inv os prog argv stdin_data res w :
  run os prog argv stdin_data = (res, w) →
  script_run os prog argv stdin_data res w.
Proof.
  intros Hrun. pose proof (run_script_run os prog argv stdin_data) as Hs.
  by rewrite Hrun in Hs.
Qed.

(** Conversely, each way of [script_run] is the run of the script. *)
Lemma script_run_run os prog argv stdin_data res w :
  script_run os prog argv stdin_data res w →
  run os prog argv stdin_data = (res, w).
Proof.
  intros Hs.
  destruct Hs;
    repeat match goal with
    | x := _ |- _ => subst x
    | H : has_fields _ _ _ _ _ |- _ => destruct H as [(? & ? & ?) (? & ? & ?)]
    | H : validated _ _ _ |- _ => destruct H as (? & ? & ?)
    end;
    unfold run, main, parser_parse_args, json_load, _validate_post_receive_args,
      os_chdir, check_call, Popen, spawn, communicate, lift, init_world,
      mbind, M_bind; simpl;
    repeat (first
      [ rewrite subscript_field
      | rewrite os_path_join_no_string by done
      | rewrite bool_decide_eq_true_2 by done
      | rewrite bool_decide_eq_false_2 by done
      | match goal with H : ?l = _ |- context [?l] => rewrite H end ];
      unfold lift; simpl).
  all: try reflexivity.
  all: by erewrite subscript_error_dict by eassumption.
Qed.

(** Only a dict has fields. *)
Lemma field_dict v k x : field v k = Some x → ∃ d, v = VDict d.
Proof. destruct v; simpl; try discriminate. eauto. Qed.

(** A run that ends in a way of [script_run] ends in no other. *)
Lemma run_ends os prog argv stdin_data res w res' w' :
  run os prog argv stdin_data = (res, w) →
  script_run os prog argv stdin_data res' w' →
  res = res' ∧ w = w'.
Proof. intros Hrun Hs. apply script_run_run in Hs. split; congruence. Qed.

(** The run at hand ends by the constructor [c] of [script_run]. *)
Ltac ends_by c :=
  match goal with
  | Hrun : _ = (?res, ?w) |- _ =>
      let H := fresh "Hends" in
      eassert (H : script_run _ _ _ _ _ _)
        by (eapply c; unfold has_fields, validated; simpl; eauto 10);
      destruct (run_ends _ _ _ _ _ _ _ _ Hrun H) as [-> ->]; clear H
  end.

(** Finding in a log that is written out the first event of a shape. *)
Ltac log_find :=
  simpl; repeat first [ apply list_elem_of_here | apply list_elem_of_further ].

(** ** The command line *)

(** C10. When the option parser returns no positional argument, the script
    ends with the usage error of [parser.error] (the usage and the message
    on the standard error, exit status 2) and nothing has been read from
    the standard input: the log of the run is empty. *)
Theorem usage_error_before_stdin os prog argv stdin_data res w :
  parse_args argv = ParseArgs [] →
  run os prog argv stdin_data = (res, w) →
  res = Raise (SystemExit 2) ∧
  exit_status res = 2 ∧
  w_log w = [] ∧
  (EvReadStdin ∉ w_log w) ∧
  w_stdout w = "" ∧
  w_stderr w =
    (get_usage prog +:+ nl) +:+
    (prog +:+ ": error: " +:+ "Base repo dir is required" +:+ nl).
Proof.
  intros Hargs. unfold run, main, parser_parse_args, mbind, M_bind.
  rewrite Hargs. simpl. intros [= <- <-]. simpl.
  split_and!; try reflexivity. apply not_elem_of_nil.
Qed.

(** X18. The standard input is read only once the option parser has
    returned a base directory: a run in which the script has read its
    standard input got at least one positional argument. *)
Lemma stdin_read_after_arguments os prog argv stdin_data :
  EvReadStdin ∈ w_log (run os prog argv stdin_data).2 →
  ∃ base rest, parse_args argv = ParseArgs (base :: rest).
Proof.
  intros Hin. destruct (run_script_run os prog argv stdin_data); eauto;
    simpl in Hin; by apply elem_of_nil in Hin.
Qed.

(** ** The hook's return code and the fetch *)


(** C4. In every run in which [git fetch] ended with a return code other
    than 0, the script ends with [CalledProcessError] carrying that return
    code and the command, and the hook has not been started: no subprocess
    other than the fetch was started and nothing was written to a pipe. *)
Theorem fetch_failure_aborts os prog argv stdin_data res w fetched :
  run os prog argv stdin_data = (res, w) →
  EvExit git_fetch fetched ∈ w_log w →
  c_returncode fetched ≠ 0 →
  res = Raise (CalledProcessError (c_returncode fetched) git_fetch) ∧
  (∀ dir, EvExec dir post_receive ∉ w_log w) ∧
  pipe_writes (w_log w) = [].
Proof.
  intros Hrun Hin Hrc. apply run_inv in Hrun.
  destruct Hrun; simpl in Hin; in_log Hin; injection Hin as <-; try done.
  split_and!; [reflexivity| |reflexivity].
  intros dir Hdir. simpl in Hdir. in_log Hdir.
Qed.

(** ** The hook's input and output *)

(** On strings, [%s] is the string itself. *)
Lemma hook_input_strings before after ref :
  hook_input (VStr before) (VStr after) (VStr ref) =
  before +:+ " " +:+ after +:+ " " +:+ ref +:+ nl.
Proof. reflexivity. Qed.

(** The values [main] takes from a payload are determined by it. *)
Lemma has_fields_inj payload n r b a n' r' b' a' :
  has_fields payload n r b a → has_fields payload n' r' b' a' →
  n = n' ∧ r = r' ∧ b = b' ∧ a = a'.
Proof.
  intros [(repo & Hrepo & Hn) (Hr & Hb & Ha)] [(repo' & Hrepo' & Hn') (Hr' & Hb' & Ha')].
  rewrite Hrepo in Hrepo'. injection Hrepo' as <-. split_and!; congruence.
Qed.

(** *** Texts that are ASCII *)

Lemma is_ascii_app s t : is_ascii (s +:+ t) = is_ascii s && is_ascii t.
Proof.
  induction s as [|c s IH]; [reflexivity|].
  change (ascii_char c && is_ascii (s +:+ t) =
          ascii_char c && is_ascii s && is_ascii t).
  rewrite IH. by destruct (ascii_char c).
Qed.

Lemma has_nul_app s t : has_nul (s +:+ t) = has_nul s || has_nul t.
Proof.
  induction s as [|c s IH]; [reflexivity|].
  change ((Ascii.eqb c "000"%char || has_nul (s +:+ t)) =
          (Ascii.eqb c "000"%char || has_nul s || has_nul t)).
  rewrite IH. by destruct (Ascii.eqb c "000"%char).
Qed.

Lemma ascii_prefix_length_all s :
  is_ascii s = true → ascii_prefix_length s = String.length s.
Proof.
  induction s as [|c s IH]; [reflexivity|]. simpl.
  destruct (ascii_char c); [|discriminate]. simpl. intros Hs. by rewrite IH.
Qed.

Lemma count_nl_app s t : count_nl (s +:+ t) = (count_nl s + count_nl t)%nat.
Proof.
  induction s as [|c s IH]; [reflexivity|].
  change (count_nl (String c (s +:+ t)) =
          (count_nl (String c s) + count_nl t)%nat).
  simpl. rewrite IH. lia.
Qed.

(** A unicode that is ASCII is written to the pipe in full. *)
Lemma pipe_text_ascii s :
  is_ascii s = true → pipe_text (PyUnicode s) = (s, true).
Proof.
  intros Hs. unfold pipe_text.
  by rewrite bool_decide_eq_true_2 by by apply ascii_prefix_length_all.
Qed.

(** The three texts of a line that is ASCII are ASCII. *)
Lemma hook_input_ascii before after ref :
  is_ascii (hook_input before after ref) = true →
  is_ascii (format_s str_builtin before) = true ∧
  is_ascii (format_s str_builtin after) = true ∧
  is_ascii (format_s str_builtin ref) = true.
Proof.
  unfold hook_input. rewrite !is_ascii_app, !andb_true_iff. tauto.
Qed.

(** A line that is ASCII is formatted and written as it is. *)
Lemma ascii_line_written before after ref :
  is_ascii (hook_input before after ref) = true →
  ∃ line, format_line before after ref = Return line ∧
          pipe_text line = (hook_input before after ref, true).
Proof.
  intros Hline. destruct (hook_input_ascii _ _ _ Hline) as (Hb & Ha & Hr).
  unfold format_line.
  destruct (is_unicode before || is_unicode after || is_unicode ref).
  - assert (Hall : forallb (λ v, is_unicode v || is_ascii (py_str str_builtin v))
                     [before; after; ref] = true).
    { simpl. rewrite !andb_true_iff, !orb_true_iff.
      split_and!; try done.
      - destruct before; auto.
      - destruct after; auto.
      - destruct ref; auto. }
    rewrite Hall. eexists. split; [reflexivity|]. by apply pipe_text_ascii.
  - eexists. split; reflexivity.
Qed.

(** C1, as the code has it. In every run in which the hook was started
    with values whose line, the [before] value, a space, the [after]
    value, a space, the [ref] value and a newline, each value as [%s]
    formats it (a string as itself, an integer in decimal, [true] as
    [True]; what [str] gives for a float, a list or an object is left
    open), is ASCII, exactly this text has been written to the standard
    input of the hook, and the three values passed the validation.  For
    three strings the text is the three strings themselves between the
    spaces and the newline.  The text is one line exactly when none of
    the three values has a newline in it. *)
Theorem hook_stdin_line os prog argv stdin_data res w payload ref before after dir :
  run os prog argv stdin_data = (res, w) →
  json_loads stdin_data = Decoded payload →
  field payload "ref" = Some ref →
  field payload "before" = Some before →
  field payload "after" = Some after →
  EvExec dir post_receive ∈ w_log w →
  spawn_errno os dir post_receive = None →
  is_ascii (hook_input before after ref) = true →
  validated ref before after ∧
  pipe_writes (w_log w) =
    [format_s str_builtin before +:+ " " +:+ format_s str_builtin after +:+ " " +:+
     format_s str_builtin ref +:+ nl] ∧
  EvPipeWrite post_receive (hook_input before after ref) ∈ w_log w ∧
  (count_nl (hook_input before after ref) = 1%nat ↔
   count_nl (format_s str_builtin before) = 0%nat ∧
   count_nl (format_s str_builtin after) = 0%nat ∧
   count_nl (format_s str_builtin ref) = 0%nat) ∧
  (∀ sb sa sr, before = VStr sb → after = VStr sa → ref = VStr sr →
     pipe_writes (w_log w) = [sb +:+ " " +:+ sa +:+ " " +:+ sr +:+ nl]).
Proof.
  intros Hrun Hjson Href Hbefore Hafter Hin Hstart Hascii.
  destruct (ascii_line_written _ _ _ Hascii) as (line & Hfmt & Hpipe).
  assert (Hlines : count_nl (hook_input before after ref) = 1%nat ↔
            count_nl (format_s str_builtin before) = 0%nat ∧
            count_nl (format_s str_builtin after) = 0%nat ∧
            count_nl (format_s str_builtin ref) = 0%nat).
  { unfold hook_input. rewrite !count_nl_app.
    change (count_nl " ") with 0%nat. change (count_nl nl) with 1%nat. lia. }
  apply run_inv in Hrun.
  destruct Hrun;
    repeat match goal with x := _ |- _ => subst x end;
    simpl in Hin; in_log Hin; injection Hin as ->;
    try congruence;
    repeat match goal with
    | H : json_loads stdin_data = Decoded ?p |- _ =>
        tryif constr_eq p payload then fail
        else (rewrite Hjson in H; injection H as <-)
    end;
    match goal with
    | H : has_fields payload _ _ _ _ |- _ =>
        destruct H as (_ & Hr' & Hb' & Ha');
        rewrite Href in Hr'; rewrite Hbefore in Hb'; rewrite Hafter in Ha';
        injection Hr' as <-; injection Hb' as <-; injection Ha' as <-
    end;
    try congruence.
  match goal with
  | H : format_line _ _ _ = Return ?l, H' : pipe_text ?l = (?i, true) |- _ =>
      assert (i = hook_input before after ref) as -> by congruence
  end.
  split_and!; [done|reflexivity| |exact Hlines|by intros sb sa sr -> -> ->].
  simpl. repeat first [ apply list_elem_of_here | apply list_elem_of_further ].
Qed.


(** ** The validation of the payload *)

(** The three tests of [_validate_post_receive_args], in their order; the
    world is left as it was. *)
Lemma validate_post_receive_args_order ref before after w :
  _validate_post_receive_args ref before after w =
  if negb (truthy ref) then (Raise (Exception "No ref found"), w)
  else if negb (truthy before) then (Raise (Exception "No before found"), w)
  else if negb (truthy after) then (Raise (Exception "No after found"), w)
  else (Return (), w).
Proof.
  unfold _validate_post_receive_args, mbind, M_bind.
  destruct (truthy ref), (truthy before), (truthy after); reflexivity.
Qed.

(** The facts of two ways of the same run are about the same payload. *)
Ltac same_payload :=
  repeat match goal with
  | H : json_loads ?s = Decoded ?p, H' : json_loads ?s = Decoded ?q |- _ =>
      rewrite H in H'; injection H' as <-
  | H : json_loads ?s = Decoded _, H' : json_loads ?s = NoJSON |- _ =>
      rewrite H in H'; discriminate H'
  | H : json_loads ?s = Decoded _, H' : json_loads ?s = TooDeep |- _ =>
      rewrite H in H'; discriminate H'
  | H : parse_args ?a = _, H' : parse_args ?a = _ |- _ =>
      rewrite H in H'; (discriminate H' || (injection H' as <- <-))
  | H : has_fields ?p _ _ _ _, H' : has_fields ?p _ _ _ _ |- _ =>
      destruct (has_fields_inj _ _ _ _ _ _ _ _ _ H H') as (? & ? & ? & ?);
      clear H'; simplify_eq
  end.

(** A name that is a string is not one that is none. *)
Ltac name_is_string :=
  match goal with
  | H : ∀ n, VStr ?x ≠ VStr n |- _ => destruct (H x eq_refl)
  end.

(** A payload with its four values has none of them missing. *)
Ltac no_field_missing :=
  match goal with
  | H : has_fields _ _ _ _ _ |- _ =>
      destruct H as [(? & ? & ?) (? & ? & ?)]; congruence
  end.

(** C5, as the code has it. For a payload that has all of
    [repository.name], [ref], [before] and [after], the script reports the
    first empty one of [ref], [before], [after] in this order: an empty
    [ref] gives the ref error whatever the other two values are, a
    non-empty [ref] with an empty [before] gives the before error and not
    the ref error, and then an empty [after] the after error. *)
Theorem validation_order os prog argv stdin_data base rest payload
    repo_name ref before after res w :
  parse_args argv = ParseArgs (base :: rest) →
  json_loads stdin_data = Decoded payload →
  has_fields payload repo_name ref before after →
  run os prog argv stdin_data = (res, w) →
  (truthy ref = false → res = Raise (Exception "No ref found")) ∧
  (truthy ref = true → truthy before = false →
   res = Raise (Exception "No before found") ∧
   res ≠ Raise (Exception "No ref found")) ∧
  (truthy ref = true → truthy before = true → truthy after = false →
   res = Raise (Exception "No after found")).
Proof.
  intros Hargs Hjson Hfields Hrun. apply run_inv in Hrun.
  destruct Hrun; same_payload; try no_field_missing;
    repeat match goal with H : validated _ _ _ |- _ => destruct H as (? & ? & ?) end;
    split_and!; intros; try congruence; split; congruence.
Qed.

(** C6, as the code has it. For a payload whose [ref] is missing, the
    script ends with an uncaught exception, exit status 1, after it has
    read the standard input and nothing else: no directory was entered and
    no subprocess was started.  The exception is that of the ref when the
    rest of the payload is there: [No ref found] for an empty [ref] in a
    payload that has its four values, [KeyError] of [ref] for a payload
    that has [repository.name] and no [ref]. *)
Theorem missing_ref_no_interaction os prog argv stdin_data base rest payload res w :
  parse_args argv = ParseArgs (base :: rest) →
  json_loads stdin_data = Decoded payload →
  ref_missing payload →
  run os prog argv stdin_data = (res, w) →
  (∃ e, res = Raise e) ∧ exit_status res = 1 ∧
  w = World "" "" None [EvReadStdin] ∧
  (∀ path, EvChdir path ∉ w_log w) ∧
  (∀ dir cmd, EvExec dir cmd ∉ w_log w) ∧
  (∀ repo_name ref before after,
     has_fields payload repo_name ref before after →
     res = Raise (Exception "No ref found")) ∧
  (∀ repository repo_name,
     field payload "repository" = Some repository →
     field repository "name" = Some repo_name →
     field payload "ref" = None →
     res = Raise (KeyError "ref")).
Proof.
  intros Hargs Hjson Hmissing Hrun. apply run_inv in Hrun.
  assert (Hinvalid : ∀ n r b a, has_fields payload n r b a → truthy r = false).
  { intros n r b a Hf. apply Hmissing. apply Hf. }
  destruct Hrun; same_payload;
    repeat match goal with
    | x := _ |- _ => subst x
    | H : validated ?r _ _, Hf : has_fields _ _ ?r _ _ |- _ =>
        destruct H as (H & _); rewrite (Hinvalid _ _ _ _ Hf) in H; discriminate H
    | H : truthy ?r = true, Hf : has_fields _ _ ?r _ _ |- _ =>
        rewrite (Hinvalid _ _ _ _ Hf) in H; discriminate H
    end.
  all: split_and!; eauto.
  all: try (by destruct payload).
  all: try (by destruct repository).
  all: try (intros ? Hin; simpl in Hin; in_log Hin; fail).
  all: try (intros ? ? Hin; simpl in Hin; in_log Hin; fail).
  all: try (intros; same_payload; try no_field_missing; congruence).
  all: intros; congruence.
Qed.

(** ** The repository *)

Lemma append_empty_r s : s +:+ "" = s.
Proof.
  induction s as [|c s IH]; [reflexivity|].
  change (String c (s +:+ "") = String c s). by rewrite IH.
Qed.

(** Joining with the empty name: the base directory, with a slash at its
    end unless it has one or is empty. *)
Lemma posix_join_empty base :
  posix_join base "" = base ∨ posix_join base "" = base +:+ "/".
Proof.
  unfold posix_join. simpl.
  destruct (bool_decide (base = "") || ends_with_slash base).
  - left. apply append_empty_r.
  - by right.
Qed.

(** The join of a base directory that is ASCII, or with a name that starts
    with a slash, is the join of the two as strings of one kind. *)
Lemma join_path_posix base name :
  String.prefix "/" name = true ∨ is_ascii base = true →
  join_path base name = Return (posix_join base name).
Proof.
  unfold join_path, posix_join, str_plus_unicode.
  destruct (String.prefix "/" name); [done|].
  intros [?| ->]; [done|].
  by destruct (bool_decide (base = "") || ends_with_slash base).
Qed.

(** No other join succeeds. *)
Lemma join_path_inv base name path :
  join_path base name = Return path →
  path = posix_join base name ∧
  (String.prefix "/" name = true ∨ is_ascii base = true).
Proof.
  unfold join_path, posix_join, str_plus_unicode.
  destruct (String.prefix "/" name); [intros [= <-]; auto|].
  destruct (is_ascii base);
    destruct (bool_decide (base = "") || ends_with_slash base);
    intros [= <-]; auto.
Qed.

(** A path that is ASCII and has no NUL goes to the system call as it
    is. *)
Lemma fs_path_plain path :
  is_ascii path = true → has_nul path = false → fs_path path = Return path.
Proof. unfold fs_path. by intros -> ->. Qed.

(** The log of a run whose payload passed the validation and names the
    repository by a string that can be joined to the base directory and
    passed to the system. *)
Lemma validated_run_log os prog argv stdin_data base rest payload
    name ref before after path repo_dir res w :
  parse_args argv = ParseArgs (base :: rest) →
  json_loads stdin_data = Decoded payload →
  has_fields payload (VStr name) ref before after →
  validated ref before after →
  join_path base name = Return path →
  fs_path path = Return repo_dir →
  run os prog argv stdin_data = (res, w) →
  EvChdir repo_dir ∈ w_log w ∧
  (∀ p, EvChdir p ∈ w_log w → p = repo_dir) ∧
  (∀ errno, chdir_errno os repo_dir = Some errno →
     res = Raise (OSError errno (Some repo_dir)) ∧
     w = World "" "" None [EvReadStdin; EvChdir repo_dir]) ∧
  (chdir_errno os repo_dir = None →
   w_cwd w = Some repo_dir ∧
   EvExec (Some repo_dir) git_fetch ∈ w_log w ∧
   (spawn_errno os (Some repo_dir) git_fetch = None →
    c_returncode (proc_run os (Some repo_dir) git_fetch "") = 0 →
    EvExec (Some repo_dir) post_receive ∈ w_log w)).
Proof.
  intros Hargs Hjson Hfields Hvalid Hjoin Hfs Hrun.
  destruct (chdir_errno os repo_dir) as [errno|] eqn:Hcd.
  { ends_by run_chdir_fails.
    split_and!; [log_find|log_only|by intros ? [= <-]|done]. }
  destruct (spawn_errno os (Some repo_dir) git_fetch) as [errno|] eqn:Hsf.
  { ends_by run_fetch_not_started.
    split_and!; [log_find|log_only|done|]. intros _.
    split_and!; [done|log_find|done]. }
  destruct (decide (c_returncode (proc_run os (Some repo_dir) git_fetch "") = 0))
    as [Hrc|Hrc].
  2: { ends_by run_fetch_fails.
       split_and!; [log_find|log_only|done|]. intros _.
       split_and!; [done|log_find|done]. }
  destruct (spawn_errno os (Some repo_dir) post_receive) as [errno|] eqn:Hsh.
  { ends_by run_hook_not_started.
    split_and!; [log_find|log_only|done|]. intros _.
    split_and!; [done|log_find|]. intros _ _. log_find. }
  destruct (format_line before after ref) as [line|e] eqn:Hfmt.
  2: { pose proof (format_line_error _ _ _ _ Hfmt) as ->.
       ends_by run_format_fails.
       split_and!; [log_find|log_only|done|]. intros _.
       split_and!; [done|log_find|]. intros _ _. log_find. }
  destruct (pipe_text line) as [written [|]] eqn:Hpipe.
  { ends_by run_hook_done.
    split_and!; [log_find|log_only|done|]. intros _.
    split_and!; [done|log_find|]. intros _ _. log_find. }
  destruct (decide (written = "")) as [->|Hw].
  { ends_by run_write_fails.
    split_and!; [log_find|log_only|done|]. intros _.
    split_and!; [done|log_find|]. intros _ _. log_find. }
  ends_by run_write_stops.
  split_and!; [log_find|log_only|done|]. intros _.
  split_and!; [done|log_find|]. intros _ _. log_find.
Qed.

(** C7, as the code has it. For a payload that passed the validation and
    names the repository by a string, the place of the repository is the
    join ([os.path.join]) of the base directory and that name, which is
    there when the base directory is ASCII or the name starts with a
    slash, and goes to [chdir] in the encoding of the file system (as it
    is when it is ASCII), where it must have no NUL.  The script changes
    to that place and to no other; when [chdir] fails there, the script
    ends with the [OSError] of the [chdir], for a place that does not
    exist as a directory an error of the kind of a repository not found,
    and no subprocess has been started, the fetch no more than the
    hook. *)
Theorem repository_not_found_aborts os prog argv stdin_data base rest payload
    name ref before after path repo_dir res w :
  parse_args argv = ParseArgs (base :: rest) →
  json_loads stdin_data = Decoded payload →
  has_fields payload (VStr name) ref before after →
  validated ref before after →
  join_path base name = Return path →
  fs_path path = Return repo_dir →
  run os prog argv stdin_data = (res, w) →
  path = posix_join base name ∧
  (is_ascii path = true → repo_dir = path) ∧
  EvChdir repo_dir ∈ w_log w ∧
  (∀ p, EvChdir p ∈ w_log w → p = repo_dir) ∧
  (∀ errno, chdir_errno os repo_dir = Some errno →
     res = Raise (OSError errno (Some repo_dir)) ∧
     w_log w = [EvReadStdin; EvChdir repo_dir] ∧
     (∀ dir cmd, EvExec dir cmd ∉ w_log w)) ∧
  (no_directory os repo_dir →
   (∃ e, res = Raise e ∧ repository_not_found e) ∧
   (∃ errno, res = Raise (OSError errno (Some repo_dir))) ∧
   w_log w = [EvReadStdin; EvChdir repo_dir] ∧
   (∀ dir cmd, EvExec dir cmd ∉ w_log w)).
Proof.
  intros Hargs Hjson Hfields Hvalid Hjoin Hfs Hrun.
  destruct (validated_run_log _ _ _ _ _ _ _ _ _ _ _ _ _ _ _
              Hargs Hjson Hfields Hvalid Hjoin Hfs Hrun)
    as (Hin & Honly & Hfail & _).
  assert (Herrno : ∀ errno, chdir_errno os repo_dir = Some errno →
            res = Raise (OSError errno (Some repo_dir)) ∧
            w_log w = [EvReadStdin; EvChdir repo_dir] ∧
            (∀ dir cmd, EvExec dir cmd ∉ w_log w)).
  { intros errno Hcd. destruct (Hfail errno Hcd) as [-> ->].
    split_and!; [reflexivity..|log_others]. }
  split_and!; [by apply join_path_inv| |done|done|done|].
  - intros Hascii. unfold fs_path in Hfs. rewrite Hascii in Hfs.
    destruct (has_nul path); congruence.
  - intros [Hno|Hno]; destruct (Herrno _ Hno) as (-> & Hlog & Hexec);
      (split_and!; [|by eexists|done|done]);
      (eexists; split; [reflexivity|]; do 2 eexists; split; [reflexivity|]);
      auto.
Qed.

(** C9, as the code has it. The name of the repository is not validated:
    for a base directory that is ASCII and has no NUL, and a payload
    whose [repository.name] is the empty string and whose [ref], [before]
    and [after] are not empty, the validation returns, and the script
    changes to the join of the base directory and the empty string, which
    is the base directory (with a slash at its end); once there it starts
    the fetch in it, and after a fetch that returned 0 the hook, in it
    too. *)
Theorem empty_name_runs_in_base os prog argv stdin_data base rest payload
    ref before after res w :
  parse_args argv = ParseArgs (base :: rest) →
  json_loads stdin_data = Decoded payload →
  has_fields payload (VStr "") ref before after →
  validated ref before after →
  is_ascii base = true →
  has_nul base = false →
  run os prog argv stdin_data = (res, w) →
  let repo_dir := posix_join base "" in
  (∀ w0, _validate_post_receive_args ref before after w0 = (Return (), w0)) ∧
  (repo_dir = base ∨ repo_dir = base +:+ "/") ∧
  EvChdir repo_dir ∈ w_log w ∧
  (chdir_errno os repo_dir = None →
   w_cwd w = Some repo_dir ∧
   EvExec (Some repo_dir) git_fetch ∈ w_log w ∧
   (spawn_errno os (Some repo_dir) git_fetch = None →
    c_returncode (proc_run os (Some repo_dir) git_fetch "") = 0 →
    EvExec (Some repo_dir) post_receive ∈ w_log w)).
Proof.
  intros Hargs Hjson Hfields Hvalid Hascii Hnul Hrun repo_dir.
  split.
  { intros w0. rewrite validate_post_receive_args_order.
    destruct Hvalid as (-> & -> & ->). reflexivity. }
  split; [apply posix_join_empty|].
  assert (Hjoin : join_path base "" = Return repo_dir)
    by (apply join_path_posix; auto).
  assert (Hfs : fs_path repo_dir = Return repo_dir).
  { apply fs_path_plain; subst repo_dir;
      destruct (posix_join_empty base) as [-> | ->];
      rewrite ?is_ascii_app, ?has_nul_app, ?Hascii, ?Hnul; reflexivity. }
  destruct (validated_run_log _ _ _ _ _ _ _ _ _ _ _ _ _ _ _
              Hargs Hjson Hfields Hvalid Hjoin Hfs Hrun)
    as (Hin & _ & _ & Hthere).
  split; done.
Qed.

(** ** Two runs *)

(** A way a run ends on one machine is a way it ends on every machine that
    agrees with it on the log of the run. *)
Lemma script_run_agree os1 os2 prog argv stdin_data res w :
  script_run os1 prog argv stdin_data res w →
  agree_on (w_log w) os1 os2 →
  script_run os2 prog argv stdin_data res w.
Proof.
  intros Hs (Hcd & Hsp & Hpr).
  destruct Hs; repeat match goal with x := _ |- _ => subst x end;
    simpl in Hcd, Hsp, Hpr.
  all: rewrite ?Hpr by set_solver.
  all: solve [ econstructor; eauto;
               rewrite <- ?Hpr by set_solver; rewrite <- ?Hcd by set_solver;
               rewrite <- ?Hsp by set_solver; done ].
Qed.

(** C8. Two runs of the script on the same command line and the same
    standard input, on machines that agree on what the first run asked of
    them (the directory, the fetch, the hook), end alike: the same
    exception, hence the same exit status, and the same world, the
    standard output and the standard error in it. *)
Theorem relay_deterministic os1 os2 prog argv stdin_data :
  agree_on (w_log (run os1 prog argv stdin_data).2) os1 os2 →
  run os2 prog argv stdin_data = run os1 prog argv stdin_data ∧
  w_stdout (run os2 prog argv stdin_data).2 =
    w_stdout (run os1 prog argv stdin_data).2 ∧
  w_stderr (run os2 prog argv stdin_data).2 =
    w_stderr (run os1 prog argv stdin_data).2 ∧
  exit_status (run os2 prog argv stdin_data).1 =
    exit_status (run os1 prog argv stdin_data).1.
Proof.
  intros Hagree.
  assert (Heq : run os2 prog argv stdin_data = run os1 prog argv stdin_data).
  { destruct (run os1 prog argv stdin_data) as [res w] eqn:Hrun.
    apply script_run_run. eapply script_run_agree; [|exact Hagree].
    by apply run_inv. }
  by rewrite Heq.
Qed.

(** ** The payload, key by key *)

(** X1. A JSON document that is no object (a list, a string, a number,
    [null]) ends the run with the [TypeError] of the first subscript,
    exit status 1, once the script has read its standard input and before
    it does anything else: no directory is entered and no subprocess
    started. *)
Theorem payload_no_object_aborts os prog argv stdin_data base rest payload res w :
  parse_args argv = ParseArgs (base :: rest) →
  json_loads stdin_data = Decoded payload →
  (∀ d, payload ≠ VDict d) →
  run os prog argv stdin_data = (res, w) →
  res = Raise TypeError ∧
  exit_status res = 1 ∧
  w_log w = [EvReadStdin] ∧
  w_cwd w = None.
Proof.
  intros Hargs Hjson Hnd Hrun.
  assert (Hrepo : field payload "repository" = None).
  { destruct payload; try reflexivity. by destruct (Hnd d). }
  assert (Herr : subscript_error payload "repository" = TypeError).
  { destruct payload; try reflexivity. by destruct (Hnd d). }
  ends_by run_no_repository. rewrite Herr. done.
Qed.

(** X2. A payload that is an object without [repository], or whose
    [repository] has no [name], ends the run on that key, whatever its
    [ref], [before] and [after] are: [KeyError] of [repository], or of
    [name], or [TypeError] when [repository] is no object; the exit status
    is 1 and nothing but the standard input has been touched. *)
Theorem repository_key_errors os prog argv stdin_data base rest d res w :
  parse_args argv = ParseArgs (base :: rest) →
  json_loads stdin_data = Decoded (VDict d) →
  d !! "repository" ≫= (λ repository, field repository "name") = None →
  run os prog argv stdin_data = (res, w) →
  (d !! "repository" = None → res = Raise (KeyError "repository")) ∧
  (∀ repository, d !! "repository" = Some repository →
     (∀ r, repository ≠ VDict r) → res = Raise TypeError) ∧
  (∀ r, d !! "repository" = Some (VDict r) → res = Raise (KeyError "name")) ∧
  exit_status res = 1 ∧
  w = World "" "" None [EvReadStdin].
Proof.
  intros Hargs Hjson Hnoname Hrun.
  destruct (d !! "repository") as [repository|] eqn:Hrepo.
  - assert (Hname : field repository "name" = None).
    { exact Hnoname. }
    ends_by run_no_name.
    split_and!; [done| | | |reflexivity].
    + intros ? [= <-] Hnd. destruct repository; try reflexivity.
      by destruct (Hnd d0).
    + by intros r [= ->].
    + by destruct repository.
  - ends_by run_no_repository.
    split_and!; try done.
Qed.

(** X3. When [before] or [after] is absent, the run ends with the
    [KeyError] of the first absent one, whatever the values that are there:
    the validation is not reached, so not even an empty [ref] is
    reported. *)
Theorem absent_revision_reported_first os prog argv stdin_data base rest d
    repository repo_name ref res w :
  parse_args argv = ParseArgs (base :: rest) →
  json_loads stdin_data = Decoded (VDict d) →
  d !! "repository" = Some repository →
  field repository "name" = Some repo_name →
  d !! "ref" = Some ref →
  (d !! "before" = None ∨ d !! "after" = None) →
  run os prog argv stdin_data = (res, w) →
  (d !! "before" = None → res = Raise (KeyError "before")) ∧
  (is_Some (d !! "before") → res = Raise (KeyError "after")) ∧
  (∀ msg, res ≠ Raise (Exception msg)) ∧
  exit_status res = 1 ∧
  w = World "" "" None [EvReadStdin].
Proof.
  intros Hargs Hjson Hrepo Hname Href Habsent Hrun.
  destruct (d !! "before") as [before|] eqn:Hbefore.
  - destruct Habsent as [?|Hafter]; [done|].
    ends_by run_no_after. split_and!; done.
  - ends_by run_no_before.
    split_and!; [done|intros [? ?]; congruence|done..].
Qed.

(** X4. The name of the repository is not validated: a payload whose
    [ref], [before] and [after] pass and whose [repository.name] is no
    string ([null], a number, a list) ends the run with the
    [AttributeError] of [os.path.join], exit status 1, before any
    directory is entered or any subprocess started. *)
Theorem name_no_string_aborts os prog argv stdin_data base rest payload
    repo_name ref before after res w :
  parse_args argv = ParseArgs (base :: rest) →
  json_loads stdin_data = Decoded payload →
  has_fields payload repo_name ref before after →
  validated ref before after →
  (∀ name, repo_name ≠ VStr name) →
  run os prog argv stdin_data = (res, w) →
  res = Raise AttributeError ∧
  exit_status res = 1 ∧
  w = World "" "" None [EvReadStdin].
Proof.
  intros Hargs Hjson Hfields Hvalid Hname Hrun.
  ends_by run_name_no_string. done.
Qed.

(** ** The directory of the repository *)

(** X5. A name of the repository that starts with a slash replaces the
    base directory, whatever that is: [os.path.join] gives the name, the
    script changes to it (in the encoding of the file system, as it is
    when it is ASCII) and to no other place, and once there starts the
    fetch there. *)
Theorem absolute_name_leaves_base os prog argv stdin_data base rest payload
    name ref before after repo_dir res w :
  parse_args argv = ParseArgs (base :: rest) →
  json_loads stdin_data = Decoded payload →
  has_fields payload (VStr name) ref before after →
  validated ref before after →
  String.prefix "/" name = true →
  fs_path name = Return repo_dir →
  run os prog argv stdin_data = (res, w) →
  (is_ascii name = true → repo_dir = name) ∧
  EvChdir repo_dir ∈ w_log w ∧
  (∀ path, EvChdir path ∈ w_log w → path = repo_dir) ∧
  (chdir_errno os repo_dir = None →
   w_cwd w = Some repo_dir ∧ EvExec (Some repo_dir) git_fetch ∈ w_log w).
Proof.
  intros Hargs Hjson Hfields Hvalid Habs Hfs Hrun.
  assert (Hjoin : join_path base name = Return name).
  { unfold join_path. by rewrite Habs. }
  destruct (validated_run_log _ _ _ _ _ _ _ _ _ _ _ _ _ _ _
              Hargs Hjson Hfields Hvalid Hjoin Hfs Hrun)
    as (Hin & Honly & _ & Hthere).
  split_and!; [|done|done|].
  - intros Hascii. unfold fs_path in Hfs. rewrite Hascii in Hfs.
    destruct (has_nul name); congruence.
  - intros Hcd. destruct (Hthere Hcd) as (? & ? & _). done.
Qed.

(** X6. A name of the repository that does not start with a slash is
    appended to the base directory as it is, after a slash unless the base
    is empty or ends with one: for a base and a name that are ASCII and
    have no NUL the script changes to that path, in which nothing of the
    name, not even [..], has been resolved. *)
Theorem relative_name_appended os prog argv stdin_data base rest payload
    name ref before after res w :
  parse_args argv = ParseArgs (base :: rest) →
  json_loads stdin_data = Decoded payload →
  has_fields payload (VStr name) ref before after →
  validated ref before after →
  String.prefix "/" name = false →
  is_ascii base = true → has_nul base = false →
  is_ascii name = true → has_nul name = false →
  run os prog argv stdin_data = (res, w) →
  (base = "" ∨ ends_with_slash base = true →
   EvChdir (base +:+ name) ∈ w_log w) ∧
  (base ≠ "" → ends_with_slash base = false →
   EvChdir (base +:+ "/" +:+ name) ∈ w_log w).
Proof.
  intros Hargs Hjson Hfields Hvalid Hrel Hab Hnb Han Hnn Hrun.
  assert (Hjoin : join_path base name = Return (posix_join base name))
    by (apply join_path_posix; auto).
  assert (Hfs : fs_path (posix_join base name) = Return (posix_join base name)).
  { apply fs_path_plain; unfold posix_join; rewrite Hrel;
      destruct (bool_decide (base = "") || ends_with_slash base);
      rewrite ?is_ascii_app, ?has_nul_app, ?Hab, ?Hnb, ?Han, ?Hnn; reflexivity. }
  destruct (validated_run_log _ _ _ _ _ _ _ _ _ _ _ _ _ _ _
              Hargs Hjson Hfields Hvalid Hjoin Hfs Hrun) as (Hlog & _).
  unfold posix_join in Hlog. rewrite Hrel in Hlog. split.
  - intros [Hbase|Hslash].
    + by rewrite bool_decide_eq_true_2 in Hlog.
    + by rewrite Hslash, orb_true_r in Hlog.
  - intros Hne Hslash.
    by rewrite bool_decide_eq_false_2, Hslash in Hlog.
Qed.

(** ** The subprocesses *)

(** X7. When the hook cannot be started, the run ends with the [OSError]
    of [Popen], exit status 1, after a fetch that returned 0: nothing has
    been written to a pipe, and the script has written nothing of its
    own, so that the two streams of the model, in which the traceback of
    the interpreter is not, hold what the fetch wrote there. *)
Theorem hook_not_started_aborts os prog argv stdin_data res w dir errno :
  run os prog argv stdin_data = (res, w) →
  EvExec dir post_receive ∈ w_log w →
  spawn_errno os dir post_receive = Some errno →
  res = Raise (OSError errno None) ∧
  exit_status res = 1 ∧
  pipe_writes (w_log w) = [] ∧
  ∃ fetched,
    EvExit git_fetch fetched ∈ w_log w ∧
    c_returncode fetched = 0 ∧
    w_stdout w = c_stdout fetched ∧
    w_stderr w = c_stderr fetched.
Proof.
  intros Hrun Hin Hspawn. apply run_inv in Hrun.
  destruct Hrun; repeat match goal with x := _ |- _ => subst x end;
    simpl in Hin; in_log Hin; injection Hin as ->; try congruence.
  assert (errno0 = errno) as -> by congruence.
  split_and!; try reflexivity.
  eexists. split_and!; [log_find|done|reflexivity..].
Qed.

(** X8. Every subprocess the script starts is the fetch or the hook, and
    is started only after a [chdir] of the script that succeeded, in the
    directory that [chdir] named (which can be the directory the script
    was started in, as for the base [.] and the empty name); the hook is
    started only after a fetch that was started there too and
    returned 0. *)
Theorem subprocess_after_chdir os prog argv stdin_data res w dir cmd :
  run os prog argv stdin_data = (res, w) →
  EvExec dir cmd ∈ w_log w →
  ∃ repo_dir,
    dir = Some repo_dir ∧
    w_cwd w = Some repo_dir ∧
    EvChdir repo_dir ∈ w_log w ∧
    chdir_errno os repo_dir = None ∧
    EvExec dir git_fetch ∈ w_log w ∧
    (cmd = git_fetch ∨
     cmd = post_receive ∧
     spawn_errno os dir git_fetch = None ∧
     ∃ fetched, EvExit git_fetch fetched ∈ w_log w ∧ c_returncode fetched = 0).
Proof.
  intros Hrun Hin. apply run_inv in Hrun.
  destruct Hrun; repeat match goal with x := _ |- _ => subst x end;
    simpl in Hin; in_log Hin; injection Hin as -> ->.
  all: eexists; split_and!;
    [reflexivity|reflexivity|log_member|done|log_member|].
  all: first [ by left | right; split_and!; [reflexivity|done|] ].
  all: eexists; split; [log_find|done].
Qed.

(** ** The exit status *)

(** X9. An exit status 0 of the script means that the hook ran and ended
    with a return code that is 0 (modulo 256), unless the option parser
    itself left the process with such a status (as for [--help]): no
    failure of the script is reported as a success. *)
Theorem zero_exit_status os prog argv stdin_data res w :
  run os prog argv stdin_data = (res, w) →
  exit_status res = 0 →
  (∃ out err status,
     parse_args argv = ParseExit out err status ∧ status `mod` 256 = 0) ∨
  (∃ hooked,
     EvExit post_receive hooked ∈ w_log w ∧ c_returncode hooked `mod` 256 = 0).
Proof.
  intros Hrun Hzero. apply run_inv in Hrun.
  destruct Hrun; repeat match goal with x := _ |- _ => subst x end;
    simpl in Hzero; try discriminate Hzero.
  - left. eauto.
  - by destruct payload.
  - by destruct repository.
  - right. eexists. split; [|exact Hzero]. log_find.
Qed.

(** X10. A hook that was killed by a signal has a negative return code,
    the number of the signal negated, and [sys.exit] of it gives the script
    the exit status 256 less that number. *)
Theorem hook_signal_exit_status os prog argv stdin_data res w hooked :
  run os prog argv stdin_data = (res, w) →
  EvExit post_receive hooked ∈ w_log w →
  (-256 < c_returncode hooked < 0) →
  res = Raise (SystemExit (c_returncode hooked)) ∧
  exit_status res = 256 + c_returncode hooked.
Proof.
  intros Hrun Hin Hrange. apply run_inv in Hrun.
  destruct Hrun; simpl in Hin; in_log Hin.
  injection Hin as <-. split; [reflexivity|]. simpl.
  symmetry. apply Z.mod_unique_pos with (q := -1); lia.
Qed.

(** ** What the run depends on *)

(** X11. Only the first positional argument counts: two command lines
    whose positional arguments start with the same base directory give
    the same run. *)
Theorem further_arguments_ignored os prog argv argv' stdin_data base rest rest' :
  parse_args argv = ParseArgs (base :: rest) →
  parse_args argv' = ParseArgs (base :: rest') →
  run os prog argv stdin_data = run os prog argv' stdin_data.
Proof.
  intros Hargs Hargs'.
  unfold run, main, parser_parse_args, mbind, M_bind.
  by rewrite Hargs, Hargs'.
Qed.

(** A way a run ends on one payload is a way it ends on every payload with
    the same four values. *)
Lemma script_run_fields os prog argv stdin_data stdin_data' payload payload'
    repo_name ref before after res w :
  json_loads stdin_data = Decoded payload →
  json_loads stdin_data' = Decoded payload' →
  has_fields payload repo_name ref before after →
  has_fields payload' repo_name ref before after →
  script_run os prog argv stdin_data res w →
  script_run os prog argv stdin_data' res w.
Proof.
  intros Hjson Hjson' Hfields Hfields' Hs.
  destruct Hs; same_payload; try no_field_missing;
    repeat match goal with x := _ |- _ => subst x end.
  all: solve [ econstructor; eauto ].
Qed.

(** X12. Of the payload the script uses [repository.name], [ref],
    [before] and [after] and nothing else: two payloads with the same four
    values give the same run. *)
Theorem other_fields_ignored os prog argv stdin_data stdin_data' payload payload'
    repo_name ref before after :
  json_loads stdin_data = Decoded payload →
  json_loads stdin_data' = Decoded payload' →
  has_fields payload repo_name ref before after →
  has_fields payload' repo_name ref before after →
  run os prog argv stdin_data = run os prog argv stdin_data'.
Proof.
  intros Hjson Hjson' Hfields Hfields'.
  destruct (run os prog argv stdin_data) as [res w] eqn:Hrun.
  symmetry. apply script_run_run.
  eapply script_run_fields; [exact Hjson|exact Hjson'|exact Hfields|exact Hfields'|].
  by apply run_inv.
Qed.

(** ** The streams *)

(** X13. A run that got a base directory and in which the hook did not
    come to an end has the exit status 1, and the script has written
    nothing of its own: its two streams hold what the fetch wrote there, if
    the fetch ran, and are empty otherwise. *)
Theorem silent_without_hook os prog argv stdin_data base rest res w :
  parse_args argv = ParseArgs (base :: rest) →
  run os prog argv stdin_data = (res, w) →
  (∀ hooked, EvExit post_receive hooked ∉ w_log w) →
  exit_status res = 1 ∧
  (∀ fetched, EvExit git_fetch fetched ∈ w_log w →
     w_stdout w = c_stdout fetched ∧ w_stderr w = c_stderr fetched) ∧
  ((∀ fetched, EvExit git_fetch fetched ∉ w_log w) →
   w_stdout w = "" ∧ w_stderr w = "").
Proof.
  intros Hargs Hrun Hnohook. apply run_inv in Hrun.
  destruct Hrun; same_payload; try congruence;
    repeat match goal with x := _ |- _ => subst x end; simpl in *.
  all: try (exfalso; eapply Hnohook; log_find; fail).
  all: split_and!;
    [ try reflexivity
    | intros fetched Hin; in_log Hin; try (by injection Hin as <-)
    | try (intros; split; reflexivity) ].
  all: try (by destruct payload).
  all: try (by destruct repository).
  all: intros Hnofetch; exfalso; eapply Hnofetch; log_find.
Qed.

(** X14. On a machine where the place of the repository (the join of
    the base directory and the name, in the encoding of the file system)
    can be entered and the two commands can be started, with a fetch that
    returns 0 and a hook that comes to an end, a payload that passes the
    validation and whose line for the hook is ASCII runs to the end: the
    script enters the repository, fetches, gives the hook its line,
    prints what the fetch and then the hook wrote, a newline after each of
    the hook's outputs, and ends by [sys.exit] of the return code of the
    hook. *)
Theorem relay_runs_to_the_end os prog argv stdin_data base rest payload
    name ref before after path repo_dir :
  parse_args argv = ParseArgs (base :: rest) →
  json_loads stdin_data = Decoded payload →
  has_fields payload (VStr name) ref before after →
  validated ref before after →
  join_path base name = Return path →
  fs_path path = Return repo_dir →
  chdir_errno os repo_dir = None →
  spawn_errno os (Some repo_dir) git_fetch = None →
  let fetched := proc_run os (Some repo_dir) git_fetch "" in
  c_returncode fetched = 0 →
  spawn_errno os (Some repo_dir) post_receive = None →
  let input := hook_input before after ref in
  is_ascii input = true →
  let hooked := proc_run os (Some repo_dir) post_receive input in
  run os prog argv stdin_data =
  (Raise (SystemExit (c_returncode hooked)),
   World (c_stdout fetched +:+ c_stdout hooked +:+ nl)
     (c_stderr fetched +:+ c_stderr hooked +:+ nl)
     (Some repo_dir)
     [EvReadStdin; EvChdir repo_dir; EvExec (Some repo_dir) git_fetch;
      EvExit git_fetch fetched; EvExec (Some repo_dir) post_receive;
      EvPipeWrite post_receive input; EvExit post_receive hooked]).
Proof.
  intros Hargs Hjson Hfields Hvalid Hjoin Hfs Hcd Hsf fetched Hrc Hsh input
    Hascii hooked.
  destruct (ascii_line_written _ _ _ Hascii) as (line & Hfmt & Hpipe).
  apply script_run_run. by eapply run_hook_done.
Qed.

(** X15. When [git] cannot be started, the run ends with the [OSError] of
    [check_call], exit status 1, in the directory of the repository: the
    hook has not been started, no subprocess has run, and the script has
    written nothing of its own, so that the two streams of the model, in
    which the traceback of the interpreter is not, are empty. *)
Theorem fetch_not_started_aborts os prog argv stdin_data res w dir errno :
  run os prog argv stdin_data = (res, w) →
  EvExec dir git_fetch ∈ w_log w →
  spawn_errno os dir git_fetch = Some errno →
  res = Raise (OSError errno None) ∧
  exit_status res = 1 ∧
  w_cwd w = dir ∧
  (∀ dir', EvExec dir' post_receive ∉ w_log w) ∧
  (∀ cmd r, EvExit cmd r ∉ w_log w) ∧
  w_stdout w = "" ∧
  w_stderr w = "".
Proof.
  intros Hrun Hin Hspawn. apply run_inv in Hrun.
  destruct Hrun; repeat match goal with x := _ |- _ => subst x end;
    simpl in Hin; in_log Hin; injection Hin as ->; try congruence.
  assert (errno0 = errno) as -> by congruence.
  split_and!; try reflexivity; log_others.
Qed.

(** X16. In no run is a command started twice: the fetch is started at
    most once, the hook at most once and only when the fetch was, and at
    most one text is written to a pipe. *)
Theorem one_fetch_one_hook os prog argv stdin_data :
  let log := w_log (run os prog argv stdin_data).2 in
  (count_exec git_fetch log ≤ 1)%nat ∧
  (count_exec post_receive log ≤ count_exec git_fetch log)%nat ∧
  (length (pipe_writes log) ≤ count_exec post_receive log)%nat.
Proof.
  destruct (run_script_run os prog argv stdin_data);
    repeat match goal with x := _ |- _ => subst x end;
    simpl; split_and!; lia.
Qed.

(** ** The line of the hook *)

(** X17. The three values go into the line of the hook as they are,
    nothing in them is quoted or replaced: the line has one newline more
    than the three strings together, so it is one line exactly when none
    of them has a newline in it. *)
Theorem hook_input_newlines before after ref :
  count_nl (hook_input (VStr before) (VStr after) (VStr ref)) =
    (count_nl before + count_nl after + count_nl ref + 1)%nat ∧
  (count_nl (hook_input (VStr before) (VStr after) (VStr ref)) = 1%nat ↔
   count_nl before = 0%nat ∧ count_nl after = 0%nat ∧ count_nl ref = 0%nat).
Proof.
  assert (Hcount : count_nl (hook_input (VStr before) (VStr after) (VStr ref)) =
                   (count_nl before + count_nl after + count_nl ref + 1)%nat).
  { unfold hook_input, format_s. rewrite !count_nl_app.
    change (count_nl " ") with 0%nat. change (count_nl nl) with 1%nat. lia. }
  split; [exact Hcount|]. rewrite Hcount. lia.
Qed.

End RelayFacts.

(** * The properties on the examples *)

Lemma sample_run_no_argument :
  Sample.run [] "event" =
  (Raise (SystemExit 2),
   World ""
     ((get_usage "fp.py" +:+ nl) +:+
      ("fp.py" +:+ ": error: " +:+ "Base repo dir is required" +:+ nl))
     None []).
Proof. reflexivity. Qed.

Lemma sample_run_event :
  Sample.run ["/srv/git"] "event" = (Raise (SystemExit 3), Sample.world_event).
Proof. reflexivity. Qed.

Lemma sample_has_fields name ref before after :
  has_fields (Sample.push name ref before after) name ref before after.
Proof.
  unfold has_fields, Sample.push. cbn [field]. split_and!.
  - eexists. split; [apply lookup_insert_eq|]. apply lookup_singleton_eq.
  - by simplify_map_eq.
  - by simplify_map_eq.
  - by simplify_map_eq.
Qed.

Lemma usage_error_before_stdin_sample :
  let res : result unit := Raise (SystemExit 2) in
  let w := (Sample.run [] "event").2 in
  res = Raise (SystemExit 2) ∧
  exit_status res = 2 ∧
  w_log w = [] ∧
  (EvReadStdin ∉ w_log w) ∧
  w_stdout w = "" ∧
  w_stderr w =
    (get_usage "fp.py" +:+ nl) +:+
    ("fp.py" +:+ ": error: " +:+ "Base repo dir is required" +:+ nl).
Proof.
  apply (usage_error_before_stdin Sample.parse_args Sample.json_loads
           Sample.str_builtin Sample.fs_encode Sample.PIPE_BUF
           Sample.os "fp.py" [] "event").
  - reflexivity.
  - exact sample_run_no_argument.
Defined.


Lemma sample_run_offline :
  run Sample.parse_args Sample.json_loads Sample.str_builtin Sample.fs_encode Sample.PIPE_BUF
    Sample.os_offline
    "fp.py" ["/srv/git"] "event" =
  (Raise (CalledProcessError 7 git_fetch),
   World "" "fatal" (Some "/srv/git/site")
     [EvReadStdin; EvChdir "/srv/git/site";
      EvExec (Some "/srv/git/site") git_fetch;
      EvExit git_fetch (Completed "" "fatal" 7)]).
Proof. reflexivity. Qed.

Lemma fetch_failure_aborts_sample :
  let w := World "" "fatal" (Some "/srv/git/site")
             [EvReadStdin; EvChdir "/srv/git/site";
              EvExec (Some "/srv/git/site") git_fetch;
              EvExit git_fetch (Completed "" "fatal" 7)] in
  Raise (CalledProcessError 7 git_fetch) =
    Raise (A:=unit) (CalledProcessError (c_returncode (Completed "" "fatal" 7)) git_fetch) ∧
  (∀ dir, EvExec dir post_receive ∉ w_log w) ∧
  pipe_writes (w_log w) = [].
Proof.
  apply (fetch_failure_aborts Sample.parse_args Sample.json_loads
           Sample.str_builtin Sample.fs_encode Sample.PIPE_BUF
           Sample.os_offline "fp.py" ["/srv/git"] "event"
           _ _ (Completed "" "fatal" 7)).
  - exact sample_run_offline.
  - simpl. set_solver.
  - discriminate.
Defined.

Lemma hook_stdin_line_sample :
  let before := VStr "1a2b" in
  let after := VStr "3c4d" in
  let ref := VStr "refs/heads/master" in
  validated ref before after ∧
  pipe_writes (w_log Sample.world_event) =
    [format_s Sample.str_builtin before +:+ " " +:+
     format_s Sample.str_builtin after +:+ " " +:+
     format_s Sample.str_builtin ref +:+ nl] ∧
  EvPipeWrite post_receive (hook_input Sample.str_builtin before after ref)
    ∈ w_log Sample.world_event ∧
  (count_nl (hook_input Sample.str_builtin before after ref) = 1%nat ↔
   count_nl (format_s Sample.str_builtin before) = 0%nat ∧
   count_nl (format_s Sample.str_builtin after) = 0%nat ∧
   count_nl (format_s Sample.str_builtin ref) = 0%nat) ∧
  (∀ sb sa sr, before = VStr sb → after = VStr sa → ref = VStr sr →
     pipe_writes (w_log Sample.world_event) =
       [sb +:+ " " +:+ sa +:+ " " +:+ sr +:+ nl]).
Proof.
  apply (hook_stdin_line Sample.parse_args Sample.json_loads
           Sample.str_builtin Sample.fs_encode Sample.PIPE_BUF Sample.os
           "fp.py" ["/srv/git"] "event"
           (Raise (SystemExit 3)) Sample.world_event
           Sample.event (VStr "refs/heads/master") (VStr "1a2b") (VStr "3c4d")
           (Some "/srv/git/site")).
  - exact sample_run_event.
  - reflexivity.
  - reflexivity.
  - reflexivity.
  - reflexivity.
  - simpl. set_solver.
  - reflexivity.
  - reflexivity.
Defined.

(** The world once the hook of [Sample.os] has been started in the
    repository. *)
Lemma more_run_accent :
  More.run Sample.os ["/srv/git"] "event, accent in ref" =
  (Raise UnicodeEncodeError, More.world_hook_started).
Proof. reflexivity. Qed.

Lemma more_run_two_lines :
  More.run Sample.os ["/srv/git"] "event, newline in ref" =
  (Raise (SystemExit 3),
   World (More.two_lines +:+ nl) ("warn" +:+ nl) (Some "/srv/git/site")
     [EvReadStdin; EvChdir "/srv/git/site";
      EvExec (Some "/srv/git/site") git_fetch;
      EvExit git_fetch (Completed "" "" 0);
      EvExec (Some "/srv/git/site") post_receive;
      EvPipeWrite post_receive More.two_lines;
      EvExit post_receive (Completed More.two_lines "warn" 3)]).
Proof. reflexivity. Qed.

(** Values that are no strings go into the line as [str] gives them. *)
Lemma more_run_numbers :
  pipe_writes (w_log (More.run More.os_echo ["/srv/git"] "event, numbers").2) =
  ["True 3c4d 7" +:+ nl].
Proof. vm_compute. reflexivity. Qed.

(** C1 as the specification has it fails twice.  With a ref that is not
    ASCII (a JSON string, which passes the validation) the hook is
    started and nothing is written to its standard input:
    [communicate] ends in [UnicodeEncodeError].  With a ref that has a
    newline in it, what is written is two lines, not one. *)
Lemma hook_stdin_not_one_line :
  let r := More.run Sample.os ["/srv/git"] "event, accent in ref" in
  let r' := More.run Sample.os ["/srv/git"] "event, newline in ref" in
  validated (VStr ("refs/heads/caf" +:+ More.e_acute)) (VStr "1a2b") (VStr "3c4d") ∧
  EvExec (Some "/srv/git/site") post_receive ∈ w_log r.2 ∧
  spawn_errno Sample.os (Some "/srv/git/site") post_receive = None ∧
  r.1 = Raise UnicodeEncodeError ∧
  pipe_writes (w_log r.2) = [] ∧
  validated (VStr ("refs/heads/a" +:+ nl +:+ "b")) (VStr "1a2b") (VStr "3c4d") ∧
  pipe_writes (w_log r'.2) = [More.two_lines] ∧
  count_nl More.two_lines = 2%nat.
Proof.
  simpl. rewrite more_run_accent, more_run_two_lines. simpl.
  split_and!; try reflexivity; try done. set_solver.
Qed.



Lemma sample_run_empty_before :
  Sample.run ["/srv/git"] "event, empty before" =
  (Raise (Exception "No before found"), Sample.world_payload).
Proof. reflexivity. Qed.

Lemma validation_order_sample :
  let ref := VStr "refs/heads/master" in
  let before := VStr "" in
  let after := VStr "3c4d" in
  let res : result unit := Raise (Exception "No before found") in
  (truthy ref = false → res = Raise (Exception "No ref found")) ∧
  (truthy ref = true → truthy before = false →
   res = Raise (Exception "No before found") ∧
   res ≠ Raise (Exception "No ref found")) ∧
  (truthy ref = true → truthy before = true → truthy after = false →
   res = Raise (Exception "No after found")).
Proof.
  apply (validation_order Sample.parse_args Sample.json_loads
           Sample.str_builtin Sample.fs_encode Sample.PIPE_BUF
           Sample.os "fp.py" ["/srv/git"]
           "event, empty before" "/srv/git" [] Sample.event_empty_before
           (VStr "site") (VStr "refs/heads/master") (VStr "") (VStr "3c4d")
           (Raise (Exception "No before found")) Sample.world_payload).
  - reflexivity.
  - reflexivity.
  - apply sample_has_fields.
  - exact sample_run_empty_before.
Defined.

(** C5 as the specification has it fails: the ref of this payload is
    empty and its [before] is absent, and the script reports the missing
    key [before], not the ref. *)
Lemma validation_order_absent_key :
  let r := Sample.run ["/srv/git"] "event, empty ref, no before" in
  Sample.json_loads "event, empty ref, no before" = Decoded Sample.event_no_before ∧
  field Sample.event_no_before "ref" = Some (VStr "") ∧
  truthy (VStr "") = false ∧
  field Sample.event_no_before "before" = None ∧
  r.1 = Raise (KeyError "before") ∧
  r.1 ≠ Raise (Exception "No ref found") ∧
  r.1 ≠ Raise (KeyError "ref").
Proof.
  assert (Hrun : Sample.run ["/srv/git"] "event, empty ref, no before" =
                 (Raise (KeyError "before"), Sample.world_payload))
    by reflexivity.
  simpl. rewrite Hrun. simpl.
  split_and!; try reflexivity; discriminate.
Qed.

Lemma sample_run_empty_ref :
  Sample.run ["/srv/git"] "event, empty ref" =
  (Raise (Exception "No ref found"), Sample.world_payload).
Proof. reflexivity. Qed.

Lemma sample_ref_missing : ref_missing Sample.event_empty_ref.
Proof.
  intros ref Href.
  destruct (sample_has_fields (VStr "site") (VStr "") (VStr "1a2b") (VStr "3c4d"))
    as (_ & Href' & _).
  unfold Sample.event_empty_ref in Href. rewrite Href' in Href.
  by injection Href as <-.
Qed.

Lemma missing_ref_no_interaction_sample :
  let payload := Sample.event_empty_ref in
  let res : result unit := Raise (Exception "No ref found") in
  let w := Sample.world_payload in
  (∃ e, res = Raise e) ∧ exit_status res = 1 ∧
  w = World "" "" None [EvReadStdin] ∧
  (∀ path, EvChdir path ∉ w_log w) ∧
  (∀ dir cmd, EvExec dir cmd ∉ w_log w) ∧
  (∀ repo_name ref before after,
     has_fields payload repo_name ref before after →
     res = Raise (Exception "No ref found")) ∧
  (∀ repository repo_name,
     field payload "repository" = Some repository →
     field repository "name" = Some repo_name →
     field payload "ref" = None →
     res = Raise (KeyError "ref")).
Proof.
  apply (missing_ref_no_interaction Sample.parse_args Sample.json_loads
           Sample.str_builtin Sample.fs_encode Sample.PIPE_BUF
           Sample.os "fp.py" ["/srv/git"]
           "event, empty ref" "/srv/git" [] Sample.event_empty_ref
           (Raise (Exception "No ref found")) Sample.world_payload).
  - reflexivity.
  - reflexivity.
  - exact sample_ref_missing.
  - exact sample_run_empty_ref.
Defined.

(** C6 as the specification has it fails: the ref of this payload is
    empty and its [after] is absent, and the script ends with the missing
    key [after], an error that is not about the ref. *)
Lemma missing_ref_other_error :
  let r := Sample.run ["/srv/git"] "event, empty ref, no after" in
  Sample.json_loads "event, empty ref, no after" = Decoded Sample.event_no_after ∧
  field Sample.event_no_after "ref" = Some (VStr "") ∧
  truthy (VStr "") = false ∧
  r.1 = Raise (KeyError "after") ∧
  r.1 ≠ Raise (Exception "No ref found") ∧
  r.1 ≠ Raise (KeyError "ref").
Proof.
  assert (Hrun : Sample.run ["/srv/git"] "event, empty ref, no after" =
                 (Raise (KeyError "after"), Sample.world_payload))
    by reflexivity.
  simpl. rewrite Hrun. simpl.
  split_and!; try reflexivity; discriminate.
Qed.

Lemma sample_run_gone :
  Sample.run ["/srv/git"] "event, gone" =
  (Raise (OSError ENOENT (Some "/srv/git/gone")),
   World "" "" None [EvReadStdin; EvChdir "/srv/git/gone"]).
Proof. reflexivity. Qed.

Lemma repository_not_found_aborts_sample :
  let res : result unit := Raise (OSError ENOENT (Some "/srv/git/gone")) in
  let w := World "" "" None [EvReadStdin; EvChdir "/srv/git/gone"] in
  let path := "/srv/git/gone" in
  let repo_dir := "/srv/git/gone" in
  path = posix_join "/srv/git" "gone" ∧
  (is_ascii path = true → repo_dir = path) ∧
  EvChdir repo_dir ∈ w_log w ∧
  (∀ p, EvChdir p ∈ w_log w → p = repo_dir) ∧
  (∀ errno, chdir_errno Sample.os repo_dir = Some errno →
     res = Raise (OSError errno (Some repo_dir)) ∧
     w_log w = [EvReadStdin; EvChdir repo_dir] ∧
     (∀ dir cmd, EvExec dir cmd ∉ w_log w)) ∧
  (no_directory Sample.os repo_dir →
   (∃ e, res = Raise e ∧ repository_not_found e) ∧
   (∃ errno, res = Raise (OSError errno (Some repo_dir))) ∧
   w_log w = [EvReadStdin; EvChdir repo_dir] ∧
   (∀ dir cmd, EvExec dir cmd ∉ w_log w)).
Proof.
  apply (repository_not_found_aborts Sample.parse_args Sample.json_loads
           Sample.str_builtin Sample.fs_encode Sample.PIPE_BUF Sample.os
           "fp.py" ["/srv/git"] "event, gone"
           "/srv/git" [] Sample.event_gone "gone"
           (VStr "refs/heads/master") (VStr "1a2b") (VStr "3c4d")
           "/srv/git/gone" "/srv/git/gone"
           (Raise (OSError ENOENT (Some "/srv/git/gone")))
           (World "" "" None [EvReadStdin; EvChdir "/srv/git/gone"])).
  - reflexivity.
  - reflexivity.
  - apply sample_has_fields.
  - done.
  - reflexivity.
  - reflexivity.
  - exact sample_run_gone.
Defined.

(** C7 as the specification has it fails: below a base directory that is
    not ASCII there is no repository [site] on the machine of the
    examples, and the script ends with the [UnicodeDecodeError] of
    [os.path.join], which is no error of a directory that is not there;
    and so with the [TypeError] of [os.chdir] for a name with a NUL in
    it. *)
Lemma repository_error_not_found_class :
  let r := More.run Sample.os [More.base_accent] "event" in
  let r' := More.run Sample.os ["/srv/git"] "event, NUL in name" in
  no_directory Sample.os (posix_join More.base_accent "site") ∧
  r.1 = Raise UnicodeDecodeError ∧
  ¬ repository_not_found UnicodeDecodeError ∧
  no_directory Sample.os (posix_join "/srv/git" ("si" +:+ More.nul +:+ "te")) ∧
  r'.1 = Raise TypeError ∧
  ¬ repository_not_found TypeError.
Proof.
  assert (Hrun : More.run Sample.os [More.base_accent] "event" =
                 (Raise UnicodeDecodeError, Sample.world_payload))
    by reflexivity.
  assert (Hrun' : More.run Sample.os ["/srv/git"] "event, NUL in name" =
                  (Raise TypeError, Sample.world_payload))
    by reflexivity.
  simpl. rewrite Hrun, Hrun'. simpl.
  split_and!; try reflexivity.
  - by left.
  - by intros (? & ? & ? & _).
  - by left.
  - by intros (? & ? & ? & _).
Qed.

Lemma sample_no_directory : no_directory Sample.os (posix_join "/srv/git" "gone").
Proof. left. reflexivity. Qed.

Lemma sample_run_no_name :
  Sample.run ["/srv/git"] "event, no name" =
  (Raise (SystemExit 3),
   World (Sample.line +:+ nl) ("warn" +:+ nl) (Some "/srv/git/")
     [EvReadStdin; EvChdir "/srv/git/";
      EvExec (Some "/srv/git/") git_fetch;
      EvExit git_fetch (Completed "" "" 0);
      EvExec (Some "/srv/git/") post_receive;
      EvPipeWrite post_receive Sample.line;
      EvExit post_receive Sample.hooked]).
Proof. reflexivity. Qed.

Lemma empty_name_runs_in_base_sample :
  let ref := VStr "refs/heads/master" in
  let before := VStr "1a2b" in
  let after := VStr "3c4d" in
  let w := World (Sample.line +:+ nl) ("warn" +:+ nl) (Some "/srv/git/")
             [EvReadStdin; EvChdir "/srv/git/";
              EvExec (Some "/srv/git/") git_fetch;
              EvExit git_fetch (Completed "" "" 0);
              EvExec (Some "/srv/git/") post_receive;
              EvPipeWrite post_receive Sample.line;
              EvExit post_receive Sample.hooked] in
  let repo_dir := posix_join "/srv/git" "" in
  (∀ w0, _validate_post_receive_args ref before after w0 = (Return (), w0)) ∧
  (repo_dir = "/srv/git" ∨ repo_dir = "/srv/git" +:+ "/") ∧
  EvChdir repo_dir ∈ w_log w ∧
  (chdir_errno Sample.os repo_dir = None →
   w_cwd w = Some repo_dir ∧
   EvExec (Some repo_dir) git_fetch ∈ w_log w ∧
   (spawn_errno Sample.os (Some repo_dir) git_fetch = None →
    c_returncode (proc_run Sample.os (Some repo_dir) git_fetch "") = 0 →
    EvExec (Some repo_dir) post_receive ∈ w_log w)).
Proof.
  apply (empty_name_runs_in_base Sample.parse_args Sample.json_loads
           Sample.str_builtin Sample.fs_encode Sample.PIPE_BUF Sample.os
           "fp.py" ["/srv/git"] "event, no name"
           "/srv/git" [] Sample.event_no_name
           (VStr "refs/heads/master") (VStr "1a2b") (VStr "3c4d")
           (Raise (SystemExit 3))).
  - reflexivity.
  - reflexivity.
  - apply sample_has_fields.
  - done.
  - reflexivity.
  - reflexivity.
  - exact sample_run_no_name.
Defined.

(** C9 as the specification has it fails: with a base directory that is
    not ASCII and the empty name, [os.path.join] ends in
    [UnicodeDecodeError], and the script neither enters the base
    directory nor fetches there. *)
Lemma empty_name_not_in_base :
  let r := More.run Sample.os [More.base_accent] "event, no name" in
  validated (VStr "refs/heads/master") (VStr "1a2b") (VStr "3c4d") ∧
  r.1 = Raise UnicodeDecodeError ∧
  w_log r.2 = [EvReadStdin] ∧
  (∀ path, EvChdir path ∉ w_log r.2) ∧
  (∀ dir cmd, EvExec dir cmd ∉ w_log r.2).
Proof.
  assert (Hrun : More.run Sample.os [More.base_accent] "event, no name" =
                 (Raise UnicodeDecodeError, Sample.world_payload))
    by reflexivity.
  simpl. rewrite Hrun. simpl.
  split_and!; try reflexivity; try done; log_others.
Qed.

Lemma sample_agree : agree_on (w_log Sample.world_event) Sample.os Sample.os_later.
Proof.
  unfold agree_on, Sample.world_event. simpl. split_and!.
  - intros path Hin. in_log Hin. by injection Hin as ->.
  - reflexivity.
  - intros dir cmd input Hin. in_log Hin; injection Hin as -> ->; reflexivity.
Qed.

Lemma relay_deterministic_sample :
  let r1 := run Sample.parse_args Sample.json_loads Sample.str_builtin Sample.fs_encode
              Sample.PIPE_BUF Sample.os "fp.py" ["/srv/git"] "event" in
  let r2 := run Sample.parse_args Sample.json_loads Sample.str_builtin Sample.fs_encode
              Sample.PIPE_BUF Sample.os_later "fp.py" ["/srv/git"] "event" in
  r2 = r1 ∧ w_stdout r2.2 = w_stdout r1.2 ∧ w_stderr r2.2 = w_stderr r1.2 ∧
  exit_status r2.1 = exit_status r1.1.
Proof.
  apply (relay_deterministic Sample.parse_args Sample.json_loads
           Sample.str_builtin Sample.fs_encode Sample.PIPE_BUF
           Sample.os Sample.os_later "fp.py" ["/srv/git"]
           "event").
  change (agree_on (w_log (Sample.run ["/srv/git"] "event").2)
            Sample.os Sample.os_later).
  rewrite sample_run_event. exact sample_agree.
Defined.

(** * The further properties on the examples *)

Lemma more_run_list :
  More.run Sample.os ["/srv/git"] "[]" = (Raise TypeError, Sample.world_payload).
Proof. reflexivity. Qed.

Lemma payload_no_object_aborts_sample :
  let res : result unit := Raise TypeError in
  res = Raise TypeError ∧
  exit_status res = 1 ∧
  w_log Sample.world_payload = [EvReadStdin] ∧
  w_cwd Sample.world_payload = None.
Proof.
  apply (payload_no_object_aborts Sample.parse_args More.json_loads
           Sample.str_builtin Sample.fs_encode Sample.PIPE_BUF Sample.os
           "fp.py" ["/srv/git"] "[]" "/srv/git" [] (VList [])
           (Raise TypeError) Sample.world_payload).
  - reflexivity.
  - reflexivity.
  - discriminate.
  - exact more_run_list.
Defined.

Lemma more_run_no_repository :
  More.run Sample.os ["/srv/git"] "event, no repository" =
  (Raise (KeyError "repository"), Sample.world_payload).
Proof. reflexivity. Qed.

Lemma repository_key_errors_sample :
  let d := More.fields_no_repository in
  let res : result unit := Raise (KeyError "repository") in
  (d !! "repository" = None → res = Raise (KeyError "repository")) ∧
  (∀ repository, d !! "repository" = Some repository →
     (∀ r, repository ≠ VDict r) → res = Raise TypeError) ∧
  (∀ r, d !! "repository" = Some (VDict r) → res = Raise (KeyError "name")) ∧
  exit_status res = 1 ∧
  Sample.world_payload = World "" "" None [EvReadStdin].
Proof.
  apply (repository_key_errors Sample.parse_args More.json_loads
           Sample.str_builtin Sample.fs_encode Sample.PIPE_BUF
           Sample.os "fp.py" ["/srv/git"]
           "event, no repository" "/srv/git" [] More.fields_no_repository
           (Raise (KeyError "repository")) Sample.world_payload).
  - reflexivity.
  - reflexivity.
  - reflexivity.
  - exact more_run_no_repository.
Defined.

Lemma more_run_no_after :
  More.run Sample.os ["/srv/git"] "event, no after" =
  (Raise (KeyError "after"), Sample.world_payload).
Proof. reflexivity. Qed.

Lemma absent_revision_reported_first_sample :
  let d := More.fields_no_after in
  let res : result unit := Raise (KeyError "after") in
  (d !! "before" = None → res = Raise (KeyError "before")) ∧
  (is_Some (d !! "before") → res = Raise (KeyError "after")) ∧
  (∀ msg, res ≠ Raise (Exception msg)) ∧
  exit_status res = 1 ∧
  Sample.world_payload = World "" "" None [EvReadStdin].
Proof.
  apply (absent_revision_reported_first Sample.parse_args More.json_loads
           Sample.str_builtin Sample.fs_encode Sample.PIPE_BUF
           Sample.os "fp.py" ["/srv/git"] "event, no after"
           "/srv/git" [] More.fields_no_after
           (VDict {[ "name" := VStr "site" ]}) (VStr "site")
           (VStr "refs/heads/master")
           (Raise (KeyError "after")) Sample.world_payload).
  - reflexivity.
  - reflexivity.
  - reflexivity.
  - reflexivity.
  - reflexivity.
  - right. reflexivity.
  - exact more_run_no_after.
Defined.

Lemma more_run_null_name :
  More.run Sample.os ["/srv/git"] "event, null name" =
  (Raise AttributeError, Sample.world_payload).
Proof. reflexivity. Qed.

Lemma name_no_string_aborts_sample :
  let res : result unit := Raise AttributeError in
  res = Raise AttributeError ∧
  exit_status res = 1 ∧
  Sample.world_payload = World "" "" None [EvReadStdin].
Proof.
  apply (name_no_string_aborts Sample.parse_args More.json_loads
           Sample.str_builtin Sample.fs_encode Sample.PIPE_BUF
           Sample.os "fp.py" ["/srv/git"] "event, null name"
           "/srv/git" [] More.event_null_name VNone
           (VStr "refs/heads/master") (VStr "1a2b") (VStr "3c4d")
           (Raise AttributeError) Sample.world_payload).
  - reflexivity.
  - reflexivity.
  - apply sample_has_fields.
  - done.
  - discriminate.
  - exact more_run_null_name.
Defined.

Lemma more_run_absolute :
  More.run More.os_open ["/srv/git"] "event, absolute name" =
  (Raise (SystemExit 3), More.world_in "/etc").
Proof. reflexivity. Qed.

Lemma absolute_name_leaves_base_sample :
  let w := More.world_in "/etc" in
  (is_ascii "/etc" = true → "/etc" = "/etc") ∧
  EvChdir "/etc" ∈ w_log w ∧
  (∀ path, EvChdir path ∈ w_log w → path = "/etc") ∧
  (chdir_errno More.os_open "/etc" = None →
   w_cwd w = Some "/etc" ∧ EvExec (Some "/etc") git_fetch ∈ w_log w).
Proof.
  apply (absolute_name_leaves_base Sample.parse_args More.json_loads
           Sample.str_builtin Sample.fs_encode Sample.PIPE_BUF More.os_open
           "fp.py" ["/srv/git"]
           "event, absolute name" "/srv/git" [] More.event_absolute "/etc"
           (VStr "refs/heads/master") (VStr "1a2b") (VStr "3c4d") "/etc"
           (Raise (SystemExit 3)) (More.world_in "/etc")).
  - reflexivity.
  - reflexivity.
  - apply sample_has_fields.
  - done.
  - reflexivity.
  - reflexivity.
  - exact more_run_absolute.
Defined.

Lemma more_run_parent :
  More.run More.os_open ["/srv/git"] "event, parent name" =
  (Raise (SystemExit 3), More.world_in "/srv/git/../other").
Proof. reflexivity. Qed.

Lemma relative_name_appended_sample :
  let w := More.world_in "/srv/git/../other" in
  ("/srv/git" = "" ∨ ends_with_slash "/srv/git" = true →
   EvChdir ("/srv/git" +:+ "../other") ∈ w_log w) ∧
  ("/srv/git" ≠ "" → ends_with_slash "/srv/git" = false →
   EvChdir ("/srv/git" +:+ "/" +:+ "../other") ∈ w_log w).
Proof.
  apply (relative_name_appended Sample.parse_args More.json_loads
           Sample.str_builtin Sample.fs_encode Sample.PIPE_BUF More.os_open
           "fp.py" ["/srv/git"]
           "event, parent name" "/srv/git" [] More.event_parent "../other"
           (VStr "refs/heads/master") (VStr "1a2b") (VStr "3c4d")
           (Raise (SystemExit 3)) (More.world_in "/srv/git/../other")).
  - reflexivity.
  - reflexivity.
  - apply sample_has_fields.
  - done.
  - reflexivity.
  - reflexivity.
  - reflexivity.
  - reflexivity.
  - reflexivity.
  - exact more_run_parent.
Defined.

Lemma more_run_no_hook :
  More.run More.os_no_hook ["/srv/git"] "event" =
  (Raise (OSError ENOENT None),
   World "" "" (Some "/srv/git/site")
     [EvReadStdin; EvChdir "/srv/git/site";
      EvExec (Some "/srv/git/site") git_fetch;
      EvExit git_fetch (Completed "" "" 0);
      EvExec (Some "/srv/git/site") post_receive]).
Proof. reflexivity. Qed.

Lemma hook_not_started_aborts_sample :
  let res : result unit := Raise (OSError ENOENT None) in
  let w := World "" "" (Some "/srv/git/site")
             [EvReadStdin; EvChdir "/srv/git/site";
              EvExec (Some "/srv/git/site") git_fetch;
              EvExit git_fetch (Completed "" "" 0);
              EvExec (Some "/srv/git/site") post_receive] in
  res = Raise (OSError ENOENT None) ∧
  exit_status res = 1 ∧
  pipe_writes (w_log w) = [] ∧
  ∃ fetched,
    EvExit git_fetch fetched ∈ w_log w ∧
    c_returncode fetched = 0 ∧
    w_stdout w = c_stdout fetched ∧
    w_stderr w = c_stderr fetched.
Proof.
  apply (hook_not_started_aborts Sample.parse_args More.json_loads
           Sample.str_builtin Sample.fs_encode Sample.PIPE_BUF
           More.os_no_hook "fp.py" ["/srv/git"] "event"
           _ _ (Some "/srv/git/site") ENOENT).
  - exact more_run_no_hook.
  - simpl. set_solver.
  - reflexivity.
Defined.

Lemma subprocess_after_chdir_sample :
  let w := Sample.world_event in
  let dir := Some "/srv/git/site" in
  ∃ repo_dir,
    dir = Some repo_dir ∧
    w_cwd w = Some repo_dir ∧
    EvChdir repo_dir ∈ w_log w ∧
    chdir_errno Sample.os repo_dir = None ∧
    EvExec dir git_fetch ∈ w_log w ∧
    (post_receive = git_fetch ∨
     post_receive = post_receive ∧
     spawn_errno Sample.os dir git_fetch = None ∧
     ∃ fetched, EvExit git_fetch fetched ∈ w_log w ∧ c_returncode fetched = 0).
Proof.
  apply (subprocess_after_chdir Sample.parse_args Sample.json_loads
           Sample.str_builtin Sample.fs_encode Sample.PIPE_BUF
           Sample.os "fp.py" ["/srv/git"] "event"
           (Raise (SystemExit 3)) Sample.world_event).
  - exact sample_run_event.
  - simpl. set_solver.
Defined.

Lemma more_run_echo :
  More.run More.os_echo ["/srv/git"] "event" =
  (Raise (SystemExit 0),
   World ("" +:+ Sample.line +:+ nl) ("From origin" +:+ "" +:+ nl)
     (Some "/srv/git/site")
     [EvReadStdin; EvChdir "/srv/git/site";
      EvExec (Some "/srv/git/site") git_fetch;
      EvExit git_fetch (Completed "" "From origin" 0);
      EvExec (Some "/srv/git/site") post_receive;
      EvPipeWrite post_receive Sample.line;
      EvExit post_receive (Completed Sample.line "" 0)]).
Proof. reflexivity. Qed.

Lemma zero_exit_status_sample :
  let w := (More.run More.os_echo ["/srv/git"] "event").2 in
  (∃ out err status,
     Sample.parse_args ["/srv/git"] = ParseExit out err status ∧
     status `mod` 256 = 0) ∨
  (∃ hooked,
     EvExit post_receive hooked ∈ w_log w ∧ c_returncode hooked `mod` 256 = 0).
Proof.
  rewrite more_run_echo.
  apply (zero_exit_status Sample.parse_args More.json_loads
           Sample.str_builtin Sample.fs_encode Sample.PIPE_BUF
           More.os_echo "fp.py" ["/srv/git"] "event"
           (Raise (SystemExit 0))).
  - exact more_run_echo.
  - reflexivity.
Defined.

Lemma more_run_killed :
  More.run More.os_killed ["/srv/git"] "event" =
  (Raise (SystemExit (-9)),
   World nl nl (Some "/srv/git/site")
     [EvReadStdin; EvChdir "/srv/git/site";
      EvExec (Some "/srv/git/site") git_fetch;
      EvExit git_fetch (Completed "" "" 0);
      EvExec (Some "/srv/git/site") post_receive;
      EvPipeWrite post_receive Sample.line;
      EvExit post_receive (Completed "" "" (-9))]).
Proof. reflexivity. Qed.

Lemma hook_signal_exit_status_sample :
  let res : result unit := Raise (SystemExit (-9)) in
  res = Raise (SystemExit (c_returncode (Completed "" "" (-9)))) ∧
  exit_status res = 256 + c_returncode (Completed "" "" (-9)).
Proof.
  apply (hook_signal_exit_status Sample.parse_args More.json_loads
           Sample.str_builtin Sample.fs_encode Sample.PIPE_BUF
           More.os_killed "fp.py" ["/srv/git"] "event"
           _ _ (Completed "" "" (-9)) more_run_killed).
  - simpl. set_solver.
  - simpl. lia.
Defined.

Lemma further_arguments_ignored_sample :
  run Sample.parse_args Sample.json_loads Sample.str_builtin Sample.fs_encode Sample.PIPE_BUF
    Sample.os "fp.py"
    ["/srv/git"] "event" =
  run Sample.parse_args Sample.json_loads Sample.str_builtin Sample.fs_encode Sample.PIPE_BUF
    Sample.os "fp.py"
    ["/srv/git"; "/srv/other"] "event".
Proof.
  apply (further_arguments_ignored Sample.parse_args Sample.json_loads
           Sample.str_builtin Sample.fs_encode Sample.PIPE_BUF
           Sample.os "fp.py" ["/srv/git"]
           ["/srv/git"; "/srv/other"] "event" "/srv/git" [] ["/srv/other"]);
    reflexivity.
Defined.

Lemma more_has_fields_pusher :
  has_fields More.event_pusher (VStr "site") (VStr "refs/heads/master")
    (VStr "1a2b") (VStr "3c4d").
Proof.
  unfold has_fields. split_and!; [|reflexivity..].
  eexists. split; reflexivity.
Qed.

Lemma other_fields_ignored_sample :
  run Sample.parse_args More.json_loads Sample.str_builtin Sample.fs_encode Sample.PIPE_BUF
    Sample.os "fp.py"
    ["/srv/git"] "event" =
  run Sample.parse_args More.json_loads Sample.str_builtin Sample.fs_encode Sample.PIPE_BUF
    Sample.os "fp.py"
    ["/srv/git"] "event, pusher".
Proof.
  apply (other_fields_ignored Sample.parse_args More.json_loads
           Sample.str_builtin Sample.fs_encode Sample.PIPE_BUF
           Sample.os "fp.py" ["/srv/git"] "event"
           "event, pusher" Sample.event More.event_pusher
           (VStr "site") (VStr "refs/heads/master") (VStr "1a2b") (VStr "3c4d")).
  - reflexivity.
  - reflexivity.
  - apply sample_has_fields.
  - exact more_has_fields_pusher.
Defined.

Lemma silent_without_hook_sample :
  let res : result unit := Raise (OSError ENOENT (Some "/srv/git/gone")) in
  let w := World "" "" None [EvReadStdin; EvChdir "/srv/git/gone"] in
  exit_status res = 1 ∧
  (∀ fetched, EvExit git_fetch fetched ∈ w_log w →
     w_stdout w = c_stdout fetched ∧ w_stderr w = c_stderr fetched) ∧
  ((∀ fetched, EvExit git_fetch fetched ∉ w_log w) →
   w_stdout w = "" ∧ w_stderr w = "").
Proof.
  apply (silent_without_hook Sample.parse_args Sample.json_loads
           Sample.str_builtin Sample.fs_encode Sample.PIPE_BUF
           Sample.os "fp.py" ["/srv/git"] "event, gone"
           "/srv/git" []).
  - reflexivity.
  - exact sample_run_gone.
  - log_others.
Defined.

Lemma relay_runs_to_the_end_sample :
  run Sample.parse_args More.json_loads Sample.str_builtin Sample.fs_encode
    Sample.PIPE_BUF More.os_echo "fp.py" ["/srv/git"] "event" =
  (Raise (SystemExit 0),
   World ("" +:+ Sample.line +:+ nl) ("From origin" +:+ "" +:+ nl)
     (Some "/srv/git/site")
     [EvReadStdin; EvChdir "/srv/git/site";
      EvExec (Some "/srv/git/site") git_fetch;
      EvExit git_fetch (Completed "" "From origin" 0);
      EvExec (Some "/srv/git/site") post_receive;
      EvPipeWrite post_receive Sample.line;
      EvExit post_receive (Completed Sample.line "" 0)]).
Proof.
  apply (relay_runs_to_the_end Sample.parse_args More.json_loads
           Sample.str_builtin Sample.fs_encode Sample.PIPE_BUF More.os_echo
           "fp.py" ["/srv/git"] "event"
           "/srv/git" [] Sample.event "site"
           (VStr "refs/heads/master") (VStr "1a2b") (VStr "3c4d")
           "/srv/git/site" "/srv/git/site").
  - reflexivity.
  - reflexivity.
  - apply sample_has_fields.
  - done.
  - reflexivity.
  - reflexivity.
  - reflexivity.
  - reflexivity.
  - reflexivity.
  - reflexivity.
  - reflexivity.
Defined.

Lemma more_run_no_git :
  More.run More.os_no_git ["/srv/git"] "event" =
  (Raise (OSError ENOENT None),
   World "" "" (Some "/srv/git/site")
     [EvReadStdin; EvChdir "/srv/git/site";
      EvExec (Some "/srv/git/site") git_fetch]).
Proof. reflexivity. Qed.

Lemma fetch_not_started_aborts_sample :
  let res : result unit := Raise (OSError ENOENT None) in
  let dir := Some "/srv/git/site" in
  let w := World "" "" dir
             [EvReadStdin; EvChdir "/srv/git/site"; EvExec dir git_fetch] in
  res = Raise (OSError ENOENT None) ∧
  exit_status res = 1 ∧
  w_cwd w = dir ∧
  (∀ dir', EvExec dir' post_receive ∉ w_log w) ∧
  (∀ cmd r, EvExit cmd r ∉ w_log w) ∧
  w_stdout w = "" ∧
  w_stderr w = "".
Proof.
  apply (fetch_not_started_aborts Sample.parse_args More.json_loads
           Sample.str_builtin Sample.fs_encode Sample.PIPE_BUF
           More.os_no_git "fp.py" ["/srv/git"] "event"
           _ _ (Some "/srv/git/site") ENOENT).
  - exact more_run_no_git.
  - simpl. set_solver.
  - reflexivity.
Defined.

Lemma stdin_read_after_arguments_sample :
  ∃ base rest, Sample.parse_args ["/srv/git"] = ParseArgs (base :: rest).
Proof.
  apply (stdin_read_after_arguments Sample.parse_args Sample.json_loads
           Sample.str_builtin Sample.fs_encode Sample.PIPE_BUF
           Sample.os "fp.py" ["/srv/git"] "event").
  change (EvReadStdin ∈ w_log (Sample.run ["/srv/git"] "event").2).
  rewrite sample_run_event. simpl. set_solver.
Defined.
